(** * Proof-of-work demo (pow.js): difficulty predicate, miner, verifier

    A shallow embedding of [src/pow.js].  The file holds two variants of the
    same engine: the first hashes [data + timestamp + nonce], the second
    [data + nonce].  [hasLeadingZeroBits] is the same function in both.

    Conventions of the embedding.
    - A [Buffer] is a [list Z] of bytes, each in [0, 256).
    - A JavaScript string is a [string]: the UTF-8 bytes of its text, which is
      what [update] hashes and what the file holds.  These bytes determine
      the string when it has no lone surrogate ([well_formed_utf8]); a lone
      surrogate is hashed as U+FFFD, and a string that has one is not in the
      embedding.
    - A JavaScript number is a double.  It is modelled by the integer that it
      holds, and the model is exact from [- 2^53] to [2^53]
      ([exact_integer]): there the text of a number is its decimal numeral
      and [JSON.parse] reads a numeral as its value.  Beyond, a double does
      not hold every integer, and the statements that depend on the value of
      a number keep to the exact integers.  [nonce++] is the successor up to
      [2^53], where it stops changing the number ([Number_increment]).
      [JNaN] is the sum of [undefined] and a number.  Numerals with a
      fraction or an exponent are read and not computed.
    - [Date.now()] is an argument of [createBlock], an integer number of
      milliseconds; the unbounded loop takes fuel, and the results say which
      fuel is enough.
    - [crypto], [JSON] and [fs] are Node's: SHA-256 is the function of
      FIPS 180-4, [JSON.parse] follows the JSON grammar, the file system is a
      finite map from paths to files, of which a write that has returned has
      changed one.
    - [console.log] and [console.error] only print, and are left out. *)

From Stdlib Require Import ZArith List String Ascii Lia Bool.
From Stdlib Require Import DecimalString DecimalZ.
From stdpp Require Import gmap strings finite.
Import ListNotations.
Local Open Scope Z_scope.
Set Warnings "-register-all".

(** ** The difficulty predicate *)

(** Outcome of scanning part of the buffer: the function has returned, or the
    loops go on with the running [count]. *)
Inductive scan : Type :=
| Return (b : bool)
| Continue (count : Z).

(** The inner loop [for (let bit = 7; bit >= 0; bit--)] over one byte, with
    [nbits] iterations left: the next bit examined has index [nbits - 1]. *)
Fixpoint scan_byte (byte : Z) (nbits : nat) (count zeros : Z) : scan :=
  match nbits with
  | O => Continue count
  | S bit =>
      if Z.land (Z.shiftr byte (Z.of_nat bit)) 1 =? 0 then
        let count := count + 1 in
        if count >=? zeros then Return true
        else scan_byte byte bit count zeros
      else Return (count >=? zeros)
  end.

(** The outer loop [for (let i = 0; i < hashBuffer.length; i++)] and the
    final [return count >= zeros]. *)
Fixpoint scan_bytes (hashBuffer : list Z) (count zeros : Z) : bool :=
  match hashBuffer with
  | [] => count >=? zeros
  | byte :: rest =>
      match scan_byte byte 8 count zeros with
      | Return b => b
      | Continue count => scan_bytes rest count zeros
      end
  end.

Definition hasLeadingZeroBits (hashBuffer : list Z) (zeros : Z) : bool :=
  scan_bytes hashBuffer 0 zeros.

(** *** The predicate as the specification words it

    The bits of the digest from the most significant bit of the first byte
    onward, and the number of zero bits before the first one bit. *)
Definition byte_bits (byte : Z) : list bool :=
  map (Z.testbit byte) [7; 6; 5; 4; 3; 2; 1; 0].

Definition digest_bits (digest : list Z) : list bool :=
  concat (map byte_bits digest).

Fixpoint leading_zero_bits (bits : list bool) : Z :=
  match bits with
  | false :: rest => 1 + leading_zero_bits rest
  | _ => 0
  end.

(** ** SHA-256

    [crypto.createHash("sha256")] is Node's; it is modelled by the function
    of FIPS 180-4 on byte lists, with 32-bit words as [Z] reduced modulo
    [2^32] by masking. *)
Module Sha256.

Definition mask32 : Z := 4294967295.

Definition wrap32 (x : Z) : Z := Z.land x mask32.

Definition add32 (x y : Z) : Z := wrap32 (x + y).

Definition rotr (n x : Z) : Z :=
  Z.lor (Z.shiftr x n) (wrap32 (Z.shiftl x (32 - n))).

Definition not32 (x : Z) : Z := Z.lxor x mask32.

Definition ch (x y z : Z) : Z :=
  Z.lxor (Z.land x y) (Z.land (not32 x) z).

Definition maj (x y z : Z) : Z :=
  Z.lxor (Z.lxor (Z.land x y) (Z.land x z)) (Z.land y z).

Definition big_sigma0 (x : Z) : Z :=
  Z.lxor (Z.lxor (rotr 2 x) (rotr 13 x)) (rotr 22 x).

Definition big_sigma1 (x : Z) : Z :=
  Z.lxor (Z.lxor (rotr 6 x) (rotr 11 x)) (rotr 25 x).

Definition small_sigma0 (x : Z) : Z :=
  Z.lxor (Z.lxor (rotr 7 x) (rotr 18 x)) (Z.shiftr x 3).

Definition small_sigma1 (x : Z) : Z :=
  Z.lxor (Z.lxor (rotr 17 x) (rotr 19 x)) (Z.shiftr x 10).

(** The round constants: the first 32 bits of the fractional parts of the
    cube roots of the first 64 primes. *)
Definition round_constants : list Z :=
  [ 1116352408; 1899447441; 3049323471; 3921009573; 961987163; 1508970993;
    2453635748; 2870763221; 3624381080; 310598401; 607225278; 1426881987;
    1925078388; 2162078206; 2614888103; 3248222580; 3835390401; 4022224774;
    264347078; 604807628; 770255983; 1249150122; 1555081692; 1996064986;
    2554220882; 2821834349; 2952996808; 3210313671; 3336571891; 3584528711;
    113926993; 338241895; 666307205; 773529912; 1294757372; 1396182291;
    1695183700; 1986661051; 2177026350; 2456956037; 2730485921; 2820302411;
    3259730800; 3345764771; 3516065817; 3600352804; 4094571909; 275423344;
    430227734; 506948616; 659060556; 883997877; 958139571; 1322822218;
    1537002063; 1747873779; 1955562222; 2024104815; 2227730452; 2361852424;
    2428436474; 2756734187; 3204031479; 3329325298 ].

(** The initial hash value: from the square roots of the first 8 primes. *)
Definition initial_hash : list Z :=
  [ 1779033703; 3144134277; 1013904242; 2773480762;
    1359893119; 2600822924; 528734635; 1541459225 ].

(** Padding: a one bit, zero bits up to 56 modulo 64 bytes, then the bit
    length of the message as a 64-bit big-endian integer. *)
Definition be_bytes (nbytes : nat) (x : Z) : list Z :=
  map (fun i => Z.land (Z.shiftr x (8 * Z.of_nat i)) 255) (rev (seq 0 nbytes)).

Definition pad (msg : list Z) : list Z :=
  let len := Z.of_nat (length msg) in
  let nzero := Z.to_nat ((55 - len) mod 64) in
  msg ++ 128 :: repeat 0 nzero ++ be_bytes 8 (8 * len).

(** The padded message cut into big-endian 32-bit words. *)
Fixpoint words_of_bytes (bytes : list Z) : list Z :=
  match bytes with
  | b0 :: b1 :: b2 :: b3 :: rest =>
      (((b0 * 256 + b1) * 256 + b2) * 256 + b3) :: words_of_bytes rest
  | _ => []
  end.

(** The message schedule, kept as a window of the last 16 words (oldest
    first): [W_t = s1(W_(t-2)) + W_(t-7) + s0(W_(t-15)) + W_(t-16)]. *)
Definition next_word (window : list Z) : Z :=
  add32 (add32 (small_sigma1 (nth 14 window 0)) (nth 9 window 0))
        (add32 (small_sigma0 (nth 1 window 0)) (nth 0 window 0)).

Fixpoint extend_schedule (steps : nat) (window : list Z) : list Z :=
  match steps with
  | O => []
  | S steps =>
      let wt := next_word window in
      wt :: extend_schedule steps (tl window ++ [wt])
  end.

Definition schedule (block : list Z) : list Z :=
  block ++ extend_schedule 48 block.

(** The eight working variables. *)
Record registers : Type := Registers {
  ra : Z; rb : Z; rc : Z; rd : Z; re : Z; rf : Z; rg : Z; rh : Z
}.

Definition round (r : registers) (kw : Z * Z) : registers :=
  let t1 :=
    add32 (add32 (add32 (rh r) (big_sigma1 (re r)))
                 (add32 (ch (re r) (rf r) (rg r)) (fst kw)))
          (snd kw) in
  let t2 := add32 (big_sigma0 (ra r)) (maj (ra r) (rb r) (rc r)) in
  Registers (add32 t1 t2) (ra r) (rb r) (rc r)
            (add32 (rd r) t1) (re r) (rf r) (rg r).

Definition registers_of (h : list Z) : registers :=
  Registers (nth 0 h 0) (nth 1 h 0) (nth 2 h 0) (nth 3 h 0)
            (nth 4 h 0) (nth 5 h 0) (nth 6 h 0) (nth 7 h 0).

Definition list_of (r : registers) : list Z :=
  [ra r; rb r; rc r; rd r; re r; rf r; rg r; rh r].

Definition compress (h : list Z) (block : list Z) : list Z :=
  let r := fold_left round (combine round_constants (schedule block))
                     (registers_of h) in
  map (fun p => add32 (fst p) (snd p)) (combine h (list_of r)).

(** One 16-word block at a time; [nblocks] is the number of blocks. *)
Fixpoint process (nblocks : nat) (h : list Z) (words : list Z) : list Z :=
  match nblocks with
  | O => h
  | S nblocks =>
      process nblocks (compress h (firstn 16 words)) (skipn 16 words)
  end.

Definition hash_words (msg : list Z) : list Z :=
  let words := words_of_bytes (pad msg) in
  process (Nat.div (length words) 16) initial_hash words.

(** The 32 bytes of the digest. *)
Definition hash_bytes (msg : list Z) : list Z :=
  concat (map (be_bytes 4) (hash_words msg)).

End Sha256.

(** ** Strings, bytes and hexadecimal text *)

(** The bytes that [update(text)] feeds to the hash: the UTF-8 encoding of
    the text, which is how the embedding holds it. *)
Definition bytes_of_string (s : string) : list Z :=
  map (fun c => Z.of_N (N_of_ascii c)) (list_ascii_of_string s).

Definition char_code (c : ascii) : Z := Z.of_N (N_of_ascii c).

Definition in_range (lo hi : Z) (c : ascii) : bool :=
  (lo <=? char_code c) && (char_code c <=? hi).

(** A byte that continues a sequence of UTF-8. *)
Definition continuation (c : ascii) : bool := in_range 128 191 c.

(** The second byte of a sequence, which depends on the first: no encoding
    longer than needed, no surrogate (U+D800 to U+DFFF), nothing above
    U+10FFFF. *)
Definition second_byte (c1 c2 : ascii) : bool :=
  let n1 := char_code c1 in
  if n1 =? 224 then in_range 160 191 c2
  else if n1 =? 237 then in_range 128 159 c2
  else if n1 =? 240 then in_range 144 191 c2
  else if n1 =? 244 then in_range 128 143 c2
  else continuation c2.

(** Well-formed UTF-8: the bytes are the encoding of a text, and of one
    JavaScript string, which has no lone surrogate.  These are the texts
    that [fs.readFileSync(path, "utf8")] returns and the strings that
    [update] hashes as they are; in bytes that are not well formed, reading
    puts U+FFFD for what it cannot decode. *)
Fixpoint well_formed_utf8 (s : string) : bool :=
  match s with
  | EmptyString => true
  | String c1 r1 =>
      if char_code c1 <? 128 then well_formed_utf8 r1
      else
        match r1 with
        | EmptyString => false
        | String c2 r2 =>
            if in_range 194 223 c1
            then continuation c2 && well_formed_utf8 r2
            else
              match r2 with
              | EmptyString => false
              | String c3 r3 =>
                  if in_range 224 239 c1
                  then second_byte c1 c2 && continuation c3
                       && well_formed_utf8 r3
                  else
                    match r3 with
                    | EmptyString => false
                    | String c4 r4 =>
                        in_range 240 244 c1 && second_byte c1 c2
                        && continuation c3 && continuation c4
                        && well_formed_utf8 r4
                    end
              end
        end
  end.

Definition hex_digit (d : Z) : ascii :=
  match d with
  | 0 => "0" | 1 => "1" | 2 => "2" | 3 => "3" | 4 => "4" | 5 => "5"
  | 6 => "6" | 7 => "7" | 8 => "8" | 9 => "9" | 10 => "a" | 11 => "b"
  | 12 => "c" | 13 => "d" | 14 => "e" | _ => "f"
  end%char.

(** [buffer.toString("hex")]: two lowercase hexadecimal digits per byte. *)
Fixpoint Buffer_toString_hex (buffer : list Z) : string :=
  match buffer with
  | [] => EmptyString
  | byte :: rest =>
      String (hex_digit (Z.shiftr byte 4))
        (String (hex_digit (Z.land byte 15)) (Buffer_toString_hex rest))
  end.

(** [crypto.createHash("sha256").update(text).digest()] *)
Definition sha256_digest (text : string) : list Z :=
  Sha256.hash_bytes (bytes_of_string text).

(** [crypto.createHash("sha256").update(text).digest("hex")] *)
Definition sha256_hex (text : string) : string :=
  Buffer_toString_hex (sha256_digest text).

(** ** Computations that may throw

    [Beyond] marks an input on which the embedding does not say what the
    program does (see [JSON_parse]); it is not an outcome of the program. *)
Inductive comp (A : Type) : Type :=
| Done (a : A)
| Throw
| Beyond.
Arguments Done {A} a.
Arguments Throw {A}.
Arguments Beyond {A}.

Definition bind {A B : Type} (c : comp A) (k : A -> comp B) : comp B :=
  match c with
  | Done a => k a
  | Throw => Throw
  | Beyond => Beyond
  end.

Notation "'let*' x ':=' c 'in' k" := (bind c (fun x => k))
  (at level 10, x name, c at level 100, k at level 200).

(** [try { body } catch (err) { return false; }] *)
Definition try_catch_false (body : comp bool) : option bool :=
  match body with
  | Done b => Some b
  | Throw => Some false
  | Beyond => None
  end.

(** ** JavaScript values and the [+] operator

    The values that [JSON.parse] builds, with [undefined] for a property that
    is absent and [NaN] for the sum of [undefined] and a number.  [JNum n]
    is the number that holds the integer [n]. *)
Inductive jsval : Type :=
| JUndefined
| JNull
| JBool (b : bool)
| JNum (n : Z)
| JNaN
| JStr (s : string)
| JArr (elems : list jsval)
| JObj (members : list (string * jsval)).

(** [2^53]: a double holds every integer up to it, and not the next one. *)
Definition max_exact_integer : Z := 9007199254740992.

(** The integers on which the embedding of a number is exact. *)
Definition exact_integer (n : Z) : Prop :=
  - max_exact_integer <= n <= max_exact_integer.

(** [nonce++] on a number counted up from 0: the successor below [2^53]; at
    [2^53] the sum [2^53 + 1] is rounded back to [2^53], and the number stays
    what it is. *)
Definition Number_increment (n : Z) : Z :=
  if n <? max_exact_integer then n + 1 else n.

(** [String(n)] of an exact integer: the decimal numeral, with a minus sign
    below zero.  (The text of a number beyond the exact integers is the
    numeral of the double that it is rounded to, and has an exponent from
    [10^21] on; it is not this numeral.) *)
Definition Number_toString (n : Z) : string :=
  NilZero.string_of_int (Z.to_int n).

(** The last binding of [key] among the members of an object: with a
    repeated key, [JSON.parse] keeps the last value. *)
Fixpoint lookup_member (key : string) (members : list (string * jsval))
  : option jsval :=
  match members with
  | [] => None
  | (k, v) :: rest =>
      match lookup_member key rest with
      | Some v' => Some v'
      | None => if String.eqb k key then Some v else None
      end
  end.

(** The value of a property of an object: the member, or [undefined]. *)
Definition member_value (key : string) (members : list (string * jsval))
  : jsval :=
  match lookup_member key members with
  | Some v => v
  | None => JUndefined
  end.

(** The texts of the elements of an array, which [join] puts between
    commas: the empty string for [undefined] and [null], and for another
    element its string. *)
Definition element_texts (text_of : jsval -> comp string)
  : list jsval -> comp (list string) :=
  fix each (l : list jsval) : comp (list string) :=
    match l with
    | [] => Done []
    | e :: l =>
        let* text := match e with
                     | JUndefined | JNull => Done EmptyString
                     | _ => text_of e
                     end in
        let* texts := each l in
        Done (text :: texts)
    end.

(** [ToString]: an array is its elements joined by commas.  An object is
    asked for its [toString]: an object that [JSON.parse] built inherits the
    one that answers ["[object Object]"], unless it has a member of that
    name, which is no function; then [valueOf], which answers the object
    itself, does not help either, and the conversion throws a
    [TypeError]. *)
Fixpoint ToString (v : jsval) : comp string :=
  match v with
  | JUndefined => Done "undefined"
  | JNull => Done "null"
  | JBool true => Done "true"
  | JBool false => Done "false"
  | JNum n => Done (Number_toString n)
  | JNaN => Done "NaN"
  | JStr s => Done s
  | JArr elems =>
      let* texts := element_texts ToString elems in
      Done (String.concat "," texts)
  | JObj members =>
      match lookup_member "toString" members with
      | Some _ => Throw
      | None => Done "[object Object]"
      end
  end%string.

(** [ToPrimitive]: arrays and objects become their string. *)
Definition ToPrimitive (v : jsval) : comp jsval :=
  match v with
  | JArr _ | JObj _ => let* text := ToString v in Done (JStr text)
  | _ => Done v
  end.

(** [ToNumber] of a primitive that is not a string; [None] is [NaN]. *)
Definition ToNumber (p : jsval) : option Z :=
  match p with
  | JNull => Some 0
  | JBool true => Some 1
  | JBool false => Some 0
  | JNum n => Some n
  | _ => None
  end.

(** [a + b]: both operands are made primitive, the left one first; the
    result is the concatenation when either primitive is a string, else the
    numeric sum (the sum of the integers, which is the number when it is an
    exact integer). *)
Definition js_add (a b : jsval) : comp jsval :=
  let* pa := ToPrimitive a in
  let* pb := ToPrimitive b in
  match pa, pb with
  | JStr _, _ | _, JStr _ =>
      let* ta := ToString pa in
      let* tb := ToString pb in
      Done (JStr (ta ++ tb))
  | _, _ =>
      match ToNumber pa, ToNumber pb with
      | Some x, Some y => Done (JNum (x + y))
      | _, _ => Done JNaN
      end
  end.

(** [a === b] where [a] is a string. *)
Definition strict_equals_string (a : string) (b : jsval) : bool :=
  match b with
  | JStr s => String.eqb a s
  | _ => false
  end.

(** [crypto.createHash("sha256").update(x).digest("hex")]: [update] throws a
    [TypeError] unless its argument is a string (or a buffer, which [+]
    never yields). *)
Definition createHash_update_digest_hex (x : jsval) : comp string :=
  match x with
  | JStr text => Done (sha256_hex text)
  | _ => Throw
  end.

(** One property of [const { hash, data, nonce, timestamp } = block]:
    destructuring [null] throws; strings, numbers, booleans and arrays have
    no property of these four names; an object gives the member or
    [undefined]. *)
Definition destructure (block : jsval) (key : string) : comp jsval :=
  match block with
  | JNull | JUndefined => Throw
  | JObj members => Done (member_value key members)
  | _ => Done JUndefined
  end.

(** ** JSON text

    [JSON.stringify] and [JSON.parse] are the engine's; they are modelled on
    the JSON grammar.  A numeral with a fraction or an exponent and a [\u]
    escape outside ASCII are read, as the grammar has them, and not
    computed. *)

Definition dquote : ascii := "034"%char.
Definition backslash : ascii := "092"%char.
Definition newline : ascii := "010"%char.

Definition char_of_code (n : Z) : ascii := ascii_of_N (Z.to_N n).

(** [QuoteJSONString]: the two-character escapes, [\u00xx] for the other
    control characters, every other character as it is. *)
Definition quote_char (c : ascii) : string :=
  let n := char_code c in
  if n =? 8 then String backslash "b"
  else if n =? 9 then String backslash "t"
  else if n =? 10 then String backslash "n"
  else if n =? 12 then String backslash "f"
  else if n =? 13 then String backslash "r"
  else if n =? 34 then String backslash (String dquote EmptyString)
  else if n =? 92 then String backslash (String backslash EmptyString)
  else if n <? 32 then
    String backslash
      (String "u" (String "0" (String "0"
         (String (hex_digit (n / 16)) (String (hex_digit (n mod 16))
            EmptyString)))))
  else String c EmptyString.

Fixpoint quote_chars (s : string) : string :=
  match s with
  | EmptyString => EmptyString
  | String c rest => quote_char c ++ quote_chars rest
  end.

Definition JSON_quote (s : string) : string :=
  String dquote (quote_chars s ++ String dquote EmptyString).

(** The text of a member value that is a string, an integer, a boolean or
    [null] ([NaN] is written as [null]); other values are not in its
    domain. *)
Definition JSON_stringify_scalar (v : jsval) : string :=
  match v with
  | JStr s => JSON_quote s
  | JNum n => Number_toString n
  | JBool true => "true"
  | JBool false => "false"
  | _ => "null"
  end.

Definition JSON_stringify_member (member : string * jsval) : string :=
  "    " ++ JSON_quote (fst member) ++ ": "
  ++ JSON_stringify_scalar (snd member).

(** [JSON.stringify(object, null, 4)] of an object with at least one member,
    all scalar, in the order of their creation: one member per line, four
    spaces of indentation. *)
Definition JSON_stringify (members : list (string * jsval)) : string :=
  String "{" (String newline
    (String.concat (String "," (String newline EmptyString))
                   (map JSON_stringify_member members)
     ++ String newline "}")).

Definition is_whitespace (c : ascii) : bool :=
  let n := char_code c in
  (n =? 32) || (n =? 9) || (n =? 10) || (n =? 13).

Fixpoint skip_whitespace (s : string) : string :=
  match s with
  | String c rest => if is_whitespace c then skip_whitespace rest else s
  | EmptyString => EmptyString
  end.

Definition is_digit (c : ascii) : bool :=
  let n := char_code c in (48 <=? n) && (n <=? 57).

Definition hex_value (c : ascii) : option Z :=
  let n := char_code c in
  if (48 <=? n) && (n <=? 57) then Some (n - 48)
  else if (97 <=? n) && (n <=? 102) then Some (n - 87)
  else if (65 <=? n) && (n <=? 70) then Some (n - 55)
  else None.

(** What a parser has read: the value, whether the embedding computes it
    exactly, and the text that is left. *)
Record parsed (A : Type) : Type := Parsed {
  value : A;
  exact : bool;
  rest : string
}.
Arguments Parsed {A} value exact rest.
Arguments value {A} p.
Arguments exact {A} p.
Arguments rest {A} p.

Definition prepend (c : ascii) (r : comp (parsed string))
  : comp (parsed string) :=
  let* p := r in Done (Parsed (String c (value p)) (exact p) (rest p)).

Definition inexact {A : Type} (r : comp (parsed A)) : comp (parsed A) :=
  let* p := r in Done (Parsed (value p) false (rest p)).

(** The characters of a string literal after its opening quote, up to the
    closing quote.  A [\u] escape outside ASCII is read and not computed. *)
Fixpoint parse_string_chars (s : string) : comp (parsed string) :=
  match s with
  | EmptyString => Throw
  | String c rest =>
      if Ascii.eqb c dquote then Done (Parsed EmptyString true rest)
      else if Ascii.eqb c backslash then
        match rest with
        | EmptyString => Throw
        | String e rest1 =>
            if Ascii.eqb e dquote || Ascii.eqb e backslash || Ascii.eqb e "/"
            then prepend e (parse_string_chars rest1)
            else if Ascii.eqb e "b" then
              prepend "008" (parse_string_chars rest1)
            else if Ascii.eqb e "f" then
              prepend "012" (parse_string_chars rest1)
            else if Ascii.eqb e "n" then
              prepend "010" (parse_string_chars rest1)
            else if Ascii.eqb e "r" then
              prepend "013" (parse_string_chars rest1)
            else if Ascii.eqb e "t" then
              prepend "009" (parse_string_chars rest1)
            else if Ascii.eqb e "u" then
              match rest1 with
              | String h1 (String h2 (String h3 (String h4 rest4))) =>
                  match hex_value h1, hex_value h2,
                        hex_value h3, hex_value h4 with
                  | Some d1, Some d2, Some d3, Some d4 =>
                      let code := ((d1 * 16 + d2) * 16 + d3) * 16 + d4 in
                      if code <? 128
                      then prepend (char_of_code code)
                                   (parse_string_chars rest4)
                      else inexact (parse_string_chars rest4)
                  | _, _, _, _ => Throw
                  end
              | _ => Throw
              end
            else Throw
        end
      else if char_code c <? 32 then Throw
      else prepend c (parse_string_chars rest)
  end.

(** The longest prefix of decimal digits, and what follows it. *)
Fixpoint span_digits (s : string) : string * string :=
  match s with
  | String c rest =>
      if is_digit c
      then let p := span_digits rest in (String c (fst p), snd p)
      else (EmptyString, s)
  | EmptyString => (EmptyString, EmptyString)
  end.

(** The integer part of a numeral: digits, not empty, with no zero in front
    of another digit. *)
Definition parse_digits (s : string) : comp (Z * string) :=
  let p := span_digits s in
  match fst p with
  | EmptyString => Throw
  | String "0" (String _ _) => Throw
  | digits =>
      match NilEmpty.uint_of_string digits with
      | Some d => Done (Z.of_uint d, snd p)
      | None => Throw
      end
  end.

(** An optional fraction: a point and at least one digit. *)
Definition parse_fraction (s : string) : comp (bool * string) :=
  match s with
  | String "." r =>
      let p := span_digits r in
      match fst p with
      | EmptyString => Throw
      | _ => Done (true, snd p)
      end
  | _ => Done (false, s)
  end.

(** An optional exponent: [e] or [E], an optional sign, at least one digit. *)
Definition parse_exponent (s : string) : comp (bool * string) :=
  match s with
  | String c r =>
      if Ascii.eqb c "e" || Ascii.eqb c "E" then
        let r1 := match r with
                  | String "+" r' => r'
                  | String "-" r' => r'
                  | _ => r
                  end in
        let p := span_digits r1 in
        match fst p with
        | EmptyString => Throw
        | _ => Done (true, snd p)
        end
      else Done (false, s)
  | EmptyString => Done (false, s)
  end.

(** A numeral.  Its value is computed when it has neither a fraction nor an
    exponent: it is then the integer that the digits write, which is the
    number that [JSON.parse] builds when it is an exact integer (beyond
    them, [JSON.parse] rounds to the nearest double). *)
Definition parse_unsigned (negative : bool) (s : string)
  : comp (parsed jsval) :=
  let* i := parse_digits s in
  let* f := parse_fraction (snd i) in
  let* e := parse_exponent (snd f) in
  Done (Parsed (JNum (if negative then - fst i else fst i))
               (negb (fst f || fst e)) (snd e)).

Definition parse_number (s : string) : comp (parsed jsval) :=
  match s with
  | String "-" r => parse_unsigned true r
  | _ => parse_unsigned false s
  end.

(** A value, the elements of an array after its bracket or a comma, and the
    members of an object after its brace or a comma.  Every call spends one
    unit of fuel. *)
Fixpoint parse_value (fuel : nat) (s : string) : comp (parsed jsval) :=
  match fuel with
  | O => Beyond
  | S fuel =>
      match skip_whitespace s with
      | EmptyString => Throw
      | String "{" r =>
          match skip_whitespace r with
          | String "}" r1 => Done (Parsed (JObj []) true r1)
          | _ =>
              let* p := parse_members fuel r in
              Done (Parsed (JObj (value p)) (exact p) (rest p))
          end
      | String "[" r =>
          match skip_whitespace r with
          | String "]" r1 => Done (Parsed (JArr []) true r1)
          | _ =>
              let* p := parse_elements fuel r in
              Done (Parsed (JArr (value p)) (exact p) (rest p))
          end
      | String "t" (String "r" (String "u" (String "e" r))) =>
          Done (Parsed (JBool true) true r)
      | String "f" (String "a" (String "l" (String "s" (String "e" r)))) =>
          Done (Parsed (JBool false) true r)
      | String "n" (String "u" (String "l" (String "l" r))) =>
          Done (Parsed JNull true r)
      | String c r as s1 =>
          if Ascii.eqb c dquote then
            let* p := parse_string_chars r in
            Done (Parsed (JStr (value p)) (exact p) (rest p))
          else if Ascii.eqb c "-" || is_digit c then parse_number s1
          else Throw
      end
  end
with parse_elements (fuel : nat) (s : string)
  : comp (parsed (list jsval)) :=
  match fuel with
  | O => Beyond
  | S fuel =>
      let* p := parse_value fuel s in
      match skip_whitespace (rest p) with
      | String "," r =>
          let* q := parse_elements fuel r in
          Done (Parsed (value p :: value q) (exact p && exact q) (rest q))
      | String "]" r => Done (Parsed [value p] (exact p) r)
      | _ => Throw
      end
  end
with parse_members (fuel : nat) (s : string)
  : comp (parsed (list (string * jsval))) :=
  match fuel with
  | O => Beyond
  | S fuel =>
      match skip_whitespace s with
      | String c r =>
          if Ascii.eqb c dquote then
            let* k := parse_string_chars r in
            match skip_whitespace (rest k) with
            | String ":" r1 =>
                let* p := parse_value fuel r1 in
                match skip_whitespace (rest p) with
                | String "," r2 =>
                    let* q := parse_members fuel r2 in
                    Done (Parsed ((value k, value p) :: value q)
                                 (exact k && exact p && exact q) (rest q))
                | String "}" r2 =>
                    Done (Parsed [(value k, value p)]
                                 (exact k && exact p) r2)
                | _ => Throw
                end
            | _ => Throw
            end
          else Throw
      | EmptyString => Throw
      end
  end.

(** [JSON.parse(text)]: one value, with nothing but whitespace behind it;
    anything else is a [SyntaxError].  The fuel is two units for each
    character.  A text that is JSON and holds a numeral or an escape that the
    embedding does not compute is [Beyond]. *)
Definition JSON_parse (text : string) : comp jsval :=
  let* p := parse_value (S (S (String.length text + String.length text)))
                        text in
  match skip_whitespace (rest p) with
  | EmptyString => if exact p then Done (value p) else Beyond
  | _ => Throw
  end.

(** ** The file system

    A finite map from paths to files.  A path is the resolved name of a
    file: two texts that reach the same file are one path.  A path holds a
    readable file with its text, or something that cannot be read (a
    directory, a file without permission); a path that is not in the map
    does not exist.  The text of a file is what reading it as ["utf8"]
    gives: its bytes when they are well-formed UTF-8 (in bytes that are not,
    reading puts U+FFFD for what it cannot decode). *)
Inductive file : Type :=
| File (content : string)
| Unreadable.

(** [fs.readFileSync(filePath, "utf8")] *)
Definition readFileSync (fs : gmap string file) (filePath : string)
  : comp string :=
  match fs !! filePath with
  | Some (File text) => Done text
  | _ => Throw
  end.

(** The file system after [fs.writeFileSync(filePath, text)] has returned:
    the path holds the text.  The call can also throw (the path is a
    directory, its directory does not exist); the embedding gives no state
    for that, and every statement on a saved block is on the state after a
    write that returned. *)
Definition writeFileSync (fs : gmap string file) (filePath text : string)
  : gmap string file :=
  <[filePath := File text]> fs.

(** ** First variant: [data + timestamp + nonce] *)
Module Timestamped.

(** The block [{ hash, data, nonce, timestamp }]. *)
Record block : Type := Block {
  hash : string;
  data : string;
  nonce : Z;
  timestamp : Z
}.

(** [const combined = data + timestamp + nonce], for a string [data]. *)
Definition combined (data : string) (timestamp nonce : Z) : string :=
  ((data ++ Number_toString timestamp) ++ Number_toString nonce)%string.

(** The exit test of the loop at a given [nonce]. *)
Definition accepts (data : string) (timestamp startingZeros nonce : Z)
  : bool :=
  hasLeadingZeroBits (sha256_digest (combined data timestamp nonce))
                     startingZeros.

(** The loop [while (true)] from the current [nonce], at most [fuel] times
    round, with [nonce++] after a failed attempt; [None] when the fuel runs
    out before the [break]. *)
Fixpoint search (fuel : nat) (data : string) (timestamp startingZeros : Z)
                (nonce : Z) : option block :=
  match fuel with
  | O => None
  | S fuel =>
      let hashBuffer := sha256_digest (combined data timestamp nonce) in
      let hash := Buffer_toString_hex hashBuffer in
      if hasLeadingZeroBits hashBuffer startingZeros
      then Some (Block hash data nonce timestamp)
      else search fuel data timestamp startingZeros (Number_increment nonce)
  end.

(** [createBlock(data, startingZeros)], where [now] is what [Date.now()]
    returns. *)
Definition createBlock (fuel : nat) (now : Z) (data : string)
                       (startingZeros : Z) : option block :=
  search fuel data now startingZeros 0.

(** The object that [JSON.stringify] receives. *)
Definition members (b : block) : list (string * jsval) :=
  [ ("hash", JStr (hash b)); ("data", JStr (data b));
    ("nonce", JNum (nonce b)); ("timestamp", JNum (timestamp b)) ]%string.

(** The body of the [try] from the destructuring on: what the function
    returns on the parsed [block], or a throw. *)
Definition verify_parsed (block : jsval) : comp bool :=
  let* hash := destructure block "hash" in
  let* data := destructure block "data" in
  let* nonce := destructure block "nonce" in
  let* timestamp := destructure block "timestamp" in
  let* sum := js_add data timestamp in
  let* combined := js_add sum nonce in
  let* computedHash := createHash_update_digest_hex combined in
  Done (strict_equals_string computedHash hash).

(** The body of the [try]. *)
Definition verifyBlock_body (fs : gmap string file) (filePath : string)
  : comp bool :=
  let* text := readFileSync fs filePath in
  let* block := JSON_parse text in
  verify_parsed block.

Definition verifyBlock (fs : gmap string file) (filePath : string)
  : option bool :=
  try_catch_false (verifyBlock_body fs filePath).

(** The file system after
    [fs.writeFileSync(filePath, JSON.stringify(block, null, 4))]. *)
Definition saveBlock (fs : gmap string file) (filePath : string)
                     (b : block) : gmap string file :=
  writeFileSync fs filePath (JSON_stringify (members b)).

End Timestamped.

(** ** Second variant: [data + nonce] *)
Module Plain.

(** The block [{ hash, data, nonce }]. *)
Record block : Type := Block {
  hash : string;
  data : string;
  nonce : Z
}.

(** [const combined = data + nonce], for a string [data]. *)
Definition combined (data : string) (nonce : Z) : string :=
  (data ++ Number_toString nonce)%string.

Definition accepts (data : string) (startingZeros nonce : Z) : bool :=
  hasLeadingZeroBits (sha256_digest (combined data nonce)) startingZeros.

Fixpoint search (fuel : nat) (data : string) (startingZeros : Z)
                (nonce : Z) : option block :=
  match fuel with
  | O => None
  | S fuel =>
      let hashBuffer := sha256_digest (combined data nonce) in
      let hash := Buffer_toString_hex hashBuffer in
      if hasLeadingZeroBits hashBuffer startingZeros
      then Some (Block hash data nonce)
      else search fuel data startingZeros (Number_increment nonce)
  end.

Definition createBlock (fuel : nat) (data : string) (startingZeros : Z)
  : option block :=
  search fuel data startingZeros 0.

Definition members (b : block) : list (string * jsval) :=
  [ ("hash", JStr (hash b)); ("data", JStr (data b));
    ("nonce", JNum (nonce b)) ]%string.

Definition verify_parsed (block : jsval) : comp bool :=
  let* hash := destructure block "hash" in
  let* data := destructure block "data" in
  let* nonce := destructure block "nonce" in
  let* combined := js_add data nonce in
  let* computedHash := createHash_update_digest_hex combined in
  Done (strict_equals_string computedHash hash).

Definition verifyBlock_body (fs : gmap string file) (filePath : string)
  : comp bool :=
  let* text := readFileSync fs filePath in
  let* block := JSON_parse text in
  verify_parsed block.

Definition verifyBlock (fs : gmap string file) (filePath : string)
  : option bool :=
  try_catch_false (verifyBlock_body fs filePath).

Definition saveBlock (fs : gmap string file) (filePath : string)
                     (b : block) : gmap string file :=
  writeFileSync fs filePath (JSON_stringify (members b)).

End Plain.

(** ** Notions used in the statements *)

(** The low [nbits] bits of a byte, most significant first. *)
Fixpoint low_bits (byte : Z) (nbits : nat) : list bool :=
  match nbits with
  | O => []
  | S bit => Z.testbit byte (Z.of_nat bit) :: low_bits byte bit
  end.

(** What stands behind a numeral in the text of a block: a comma, or the
    end of the line. *)
Definition ends_numeral (rest : string) : Prop :=
  exists c r, rest = String c r /\ (c = ","%char \/ c = newline).

(** A member whose value is a string or an integer. *)
Definition scalar_member (member : string * jsval) : Prop :=
  match snd member with
  | JStr _ | JNum _ => True
  | _ => False
  end.

Definition member_separator : string :=
  String "," (String newline EmptyString).

(** A byte, and the number that a list of bytes writes in base 256, least
    significant byte first. *)
Definition is_byte (b : Z) : Prop := 0 <= b < 256.

Fixpoint bytes_value (l : list Z) : Z :=
  match l with
  | [] => 0
  | b :: l => b + 256 * bytes_value l
  end.

(** ** Further notions used in the statements *)

(** A digest read as a number, most significant byte first. *)
Fixpoint be_value (l : list Z) : Z :=
  match l with
  | [] => 0
  | b :: l => b * 256 ^ Z.of_nat (length l) + be_value l
  end.

(** A list of bits read as a number, most significant bit first. *)
Fixpoint bits_value (bits : list bool) : Z :=
  match bits with
  | [] => 0
  | b :: bits =>
      (if b then 2 ^ Z.of_nat (length bits) else 0) + bits_value bits
  end.

(** The 256 bytes. *)
Definition all_bytes : list Z := map Z.of_nat (seq 0 256).

(** A lowercase hexadecimal digit. *)
Definition is_hex_char (c : ascii) : bool :=
  let n := char_code c in
  ((48 <=? n) && (n <=? 57)) || ((97 <=? n) && (n <=? 102)).

Fixpoint string_forallb (P : ascii -> bool) (s : string) : bool :=
  match s with
  | EmptyString => true
  | String c s => P c && string_forallb P s
  end.

(** The text of [k] characters ["0"]. *)
Fixpoint zero_chars (k : nat) : string :=
  match k with
  | O => EmptyString
  | S k => String "0" (zero_chars k)
  end.

(** What the two hexadecimal digits of a byte say about it. *)
Definition byte_hex_ok (b : Z) : bool :=
  let hi := Z.shiftr b 4 in
  let lo := Z.land b 15 in
  is_hex_char (hex_digit hi) && is_hex_char (hex_digit lo)
  && (b =? 16 * hi + lo)
  && match hex_value (hex_digit hi), hex_value (hex_digit lo) with
     | Some h, Some l => (h =? hi) && (l =? lo)
     | _, _ => false
     end.

(** What the leading zero bits of a byte say about its first hexadecimal
    digit. *)
Definition byte_zeros_ok (b : Z) : bool :=
  let l := leading_zero_bits (byte_bits b) in
  if b =? 0 then l =? 8
  else if b <? 16
       then (4 <=? l) && (l <? 8) && Ascii.eqb (hex_digit (Z.shiftr b 4)) "0"
       else l <? 4.

(** A value that [+] treats as a number: not a string, and not an array or
    an object, which become strings. *)
Definition not_textual (v : jsval) : Prop :=
  match v with
  | JStr _ | JArr _ | JObj _ => False
  | _ => True
  end.

(** * Theorems *)

(** ** Well-formed text *)

Example well_formed_utf8_ascii : well_formed_utf8 "block.json" = true.
Proof. reflexivity. Qed.

(** The euro sign U+20AC and the replacement character U+FFFD, three bytes
    each, and U+1F600, four bytes. *)
Example well_formed_utf8_multibyte :
  well_formed_utf8 (String "226" (String "130" (String "172" "")))
  = true
  /\ well_formed_utf8 (String "239" (String "191" (String "189" "")))
     = true
  /\ well_formed_utf8
       (String "240" (String "159" (String "152" (String "128" ""))))
     = true.
Proof. repeat split. Qed.

(** What is not well formed: the surrogate U+D800 written as three bytes,
    an encoding longer than needed, a byte that starts nothing, a sequence
    cut short, a code point above U+10FFFF. *)
Example well_formed_utf8_rejects :
  well_formed_utf8 (String "237" (String "160" (String "128" ""))) = false
  /\ well_formed_utf8 (String "192" (String "128" "")) = false
  /\ well_formed_utf8 (String "255" "") = false
  /\ well_formed_utf8 (String "226" (String "130" "")) = false
  /\ well_formed_utf8
       (String "244" (String "144" (String "128" (String "128" ""))))
     = false.
Proof. repeat split. Qed.

(** ** Numbers and the [+] operator at their edges *)

(** The counter goes up by one until [2^53], and stays there. *)
Example Number_increment_edges :
  Number_increment 0 = 1
  /\ Number_increment 9007199254740991 = 9007199254740992
  /\ Number_increment 9007199254740992 = 9007199254740992.
Proof. repeat split. Qed.

(** An object is ["[object Object]"] unless a member hides [toString]; an
    array is its elements between commas, nothing for [null]. *)
Example js_add_objects :
  js_add (JObj [("a", JNum 1)]%string) (JNum 1)
  = Done (JStr "[object Object]1")
  /\ js_add (JObj [("toString", JNum 1)]%string) (JNum 1) = Throw
  /\ js_add (JArr [JNum 1; JNull; JArr [JNum 2; JNum 3]]) (JStr "x")
     = Done (JStr "1,,2,3x")
  /\ js_add (JArr [JObj [("toString", JNull)]%string]) (JStr "x") = Throw.
Proof. repeat split. Qed.

(** Without a string the sum is a number, or [NaN] with [undefined]. *)
Example js_add_numbers :
  js_add (JNum 2) (JBool true) = Done (JNum 3)
  /\ js_add JNull (JNum 5) = Done (JNum 5)
  /\ js_add JUndefined (JNum 5) = Done JNaN
  /\ js_add (JStr "ab") JUndefined = Done (JStr "abundefined").
Proof. repeat split. Qed.

(** ** SHA-256 against the published test vectors *)

Example sha256_abc :
  sha256_hex "abc"
  = "ba7816bf8f01cfea414140de5dae2223b00361a396177a9cb410ff61f20015ad"%string.
Proof. vm_compute. reflexivity. Qed.

Example sha256_empty :
  sha256_hex ""
  = "e3b0c44298fc1c149afbf4c8996fb92427ae41e4649b934ca495991b7852b855"%string.
Proof. vm_compute. reflexivity. Qed.

Example sha256_two_blocks :
  sha256_hex "abcdbcdecdefdefgefghfghighijhijkijkljklmklmnlmnomnopnopq"
  = "248d6a61d20638b8e5c026930c3e6039a33ce45964ff2167f6ecedd419db06c1"%string.
Proof. vm_compute. reflexivity. Qed.

(** ** Difficulty predicate *)

Lemma land_shiftr_1_testbit (byte k : Z) :
  (Z.land (Z.shiftr byte k) 1 =? 0) = negb (Z.testbit byte k).
Proof.
  rewrite Z.testbit_odd.
  change 1 with (Z.ones 1). rewrite Z.land_ones by lia.
  rewrite Z.pow_1_r, Zmod_odd.
  destruct (Z.odd (Z.shiftr byte k)); reflexivity.
Qed.

Lemma leading_zero_bits_nonneg (bits : list bool) : 0 <= leading_zero_bits bits.
Proof.
  induction bits as [|b bits IH]; simpl; [lia|]. destruct b; lia.
Qed.

Lemma leading_zero_bits_le_length (bits : list bool) :
  leading_zero_bits bits <= Z.of_nat (length bits).
Proof.
  induction bits as [|b bits IH]; simpl length; simpl leading_zero_bits; [lia|].
  destruct b; lia.
Qed.

Lemma byte_bits_low_bits (byte : Z) : byte_bits byte = low_bits byte 8.
Proof. reflexivity. Qed.

(** One byte of the scan against the bit list: either the function returns
    the comparison of [zeros] with the count of leading zeros, or the byte's
    remaining bits are all zero and the count has grown by their number. *)
Lemma scan_byte_spec (byte : Z) (nbits : nat) (count zeros : Z) (tl : list bool) :
  match scan_byte byte nbits count zeros with
  | Return b =>
      b = (zeros <=? count + leading_zero_bits (low_bits byte nbits ++ tl))
  | Continue count' =>
      count' = count + Z.of_nat nbits /\
      leading_zero_bits (low_bits byte nbits ++ tl)
      = Z.of_nat nbits + leading_zero_bits tl
  end.
Proof.
  revert count. induction nbits as [|bit IH]; intros count.
  - simpl. lia.
  - cbn [scan_byte low_bits]. rewrite land_shiftr_1_testbit.
    destruct (Z.testbit byte (Z.of_nat bit)) eqn:Hbit; cbn [negb].
    + cbn [app leading_zero_bits]. rewrite Z.add_0_r. apply Z.geb_leb.
    + cbn [app leading_zero_bits].
      pose proof (leading_zero_bits_nonneg (low_bits byte bit ++ tl)) as Hnn.
      rewrite Z.geb_leb. destruct (zeros <=? count + 1) eqn:Hge.
      * symmetry. apply Z.leb_le. apply Z.leb_le in Hge. lia.
      * specialize (IH (count + 1)).
        destruct (scan_byte byte bit (count + 1) zeros) as [b|count'].
        -- rewrite IH. f_equal. lia.
        -- destruct IH as [-> ->]. lia.
Qed.

Lemma scan_bytes_spec (hashBuffer : list Z) (count zeros : Z) :
  scan_bytes hashBuffer count zeros
  = (zeros <=? count + leading_zero_bits (digest_bits hashBuffer)).
Proof.
  revert count. induction hashBuffer as [|byte rest IH]; intros count.
  - cbn. rewrite Z.add_0_r. apply Z.geb_leb.
  - cbn [scan_bytes digest_bits map concat]. rewrite byte_bits_low_bits.
    pose proof (scan_byte_spec byte 8 count zeros (digest_bits rest)) as H.
    fold (digest_bits rest).
    destruct (scan_byte byte 8 count zeros) as [b|count'].
    + exact H.
    + destruct H as [-> ->]. rewrite IH. f_equal. lia.
Qed.

Lemma digest_bits_length (digest : list Z) :
  Z.of_nat (length (digest_bits digest)) = 8 * Z.of_nat (length digest).
Proof.
  induction digest as [|byte rest IH]; [reflexivity|].
  cbn [digest_bits map concat]. fold (digest_bits rest).
  rewrite length_app. cbn [length byte_bits map] in *. lia.
Qed.

(** C2: [hasLeadingZeroBits digest zeros] is true exactly when the number of
    zero bits before the first one bit, reading from the most significant bit
    of the first byte, is at least [zeros]; when [zeros] exceeds the total
    bit length [8 * length digest], the result is false. *)
Theorem hasLeadingZeroBits_iff_leading_zero_bits (digest : list Z) (zeros : Z) :
  0 <= zeros ->
  (hasLeadingZeroBits digest zeros = true
   <-> zeros <= leading_zero_bits (digest_bits digest))
  /\ (8 * Z.of_nat (length digest) < zeros ->
      hasLeadingZeroBits digest zeros = false).
Proof.
  intros _. unfold hasLeadingZeroBits. rewrite scan_bytes_spec, Z.add_0_l.
  split.
  - apply Z.leb_le.
  - intros Hbig. apply Z.leb_gt.
    pose proof (leading_zero_bits_le_length (digest_bits digest)) as Hle.
    rewrite digest_bits_length in Hle. lia.
Qed.

Lemma hasLeadingZeroBits_iff_witness :
  (hasLeadingZeroBits [0; 128] 8 = true
   <-> 8 <= leading_zero_bits (digest_bits [0; 128]))
  /\ hasLeadingZeroBits [0; 128] 17 = false.
Proof.
  split.
  - apply (hasLeadingZeroBits_iff_leading_zero_bits [0; 128] 8). lia.
  - apply (hasLeadingZeroBits_iff_leading_zero_bits [0; 128] 17).
    + lia.
    + cbn [length]. lia.
Defined.

(** C4, as the code has it: a digest that starts with the bytes 0x00 0x80 has
    exactly 8 leading zero bits (0x80 is 1000 0000 in binary), so the
    predicate holds for 8 and fails for 9 and for 10. *)
Theorem hasLeadingZeroBits_00_80 (rest : list Z) :
  hasLeadingZeroBits (0 :: 128 :: rest) 8 = true
  /\ hasLeadingZeroBits (0 :: 128 :: rest) 9 = false
  /\ hasLeadingZeroBits (0 :: 128 :: rest) 10 = false.
Proof. repeat split; reflexivity. Qed.

(** C4 as stated fails: with first byte 0x00 and second byte 0x80 the ninth
    bit is a one, and the predicate rejects 9. *)
Lemma hasLeadingZeroBits_00_80_not_9 :
  ~ (hasLeadingZeroBits [0; 128] 9 = true
     /\ hasLeadingZeroBits [0; 128] 10 = false).
Proof. intros [H _]. vm_compute in H. discriminate H. Qed.

(** C7: no leading zero bit required is met by every digest, the empty one
    included. *)
Theorem hasLeadingZeroBits_zero (d : list Z) : hasLeadingZeroBits d 0 = true.
Proof.
  unfold hasLeadingZeroBits. rewrite scan_bytes_spec. apply Z.leb_le.
  pose proof (leading_zero_bits_nonneg (digest_bits d)). lia.
Qed.

(** ** The miner *)

(** A predicate on the nonces that holds somewhere holds at a least nonce. *)
Lemma least_accepted (P : Z -> bool) (n : Z) :
  0 <= n -> P n = true ->
  exists n0, 0 <= n0 <= n /\ P n0 = true
             /\ forall m, 0 <= m < n0 -> P m = false.
Proof.
  intros Hn HP.
  assert (Hscan : forall k : nat,
             (forall m, 0 <= m < Z.of_nat k -> P m = false)
             \/ (exists n0, 0 <= n0 < Z.of_nat k /\ P n0 = true
                            /\ forall m, 0 <= m < n0 -> P m = false)).
  { induction k as [|k [IH|IH]].
    - left. intros m Hm. lia.
    - destruct (P (Z.of_nat k)) eqn:Hk.
      + right. exists (Z.of_nat k). repeat split; try lia; assumption.
      + left. intros m Hm.
        destruct (Z.eq_dec m (Z.of_nat k)) as [->|Hne]; [assumption|].
        apply IH. lia.
    - right. destruct IH as (n0 & Hn0 & Hacc & Hleast).
      exists n0. repeat split; try lia; assumption. }
  destruct (Hscan (S (Z.to_nat n))) as [Hnone|(n0 & Hn0 & Hacc & Hleast)].
  - rewrite Hnone in HP by lia. discriminate HP.
  - exists n0. repeat split; try lia; assumption.
Qed.

Lemma Number_increment_below (n : Z) :
  n < max_exact_integer -> Number_increment n = n + 1.
Proof.
  intros Hn. unfold Number_increment.
  destruct (n <? max_exact_integer) eqn:Hlt; [reflexivity|].
  apply Z.ltb_ge in Hlt. lia.
Qed.

Lemma Number_increment_at_most (n : Z) :
  max_exact_integer <= n -> Number_increment n = n.
Proof.
  intros Hn. unfold Number_increment.
  destruct (n <? max_exact_integer) eqn:Hlt; [|reflexivity].
  apply Z.ltb_lt in Hlt. lia.
Qed.

Lemma Number_increment_bounds (n : Z) : n <= Number_increment n <= n + 1.
Proof.
  unfold Number_increment. destruct (n <? max_exact_integer); lia.
Qed.

Lemma Plain_search_unfold (fuel : nat) (data : string) (zeros nonce : Z) :
  Plain.search (S fuel) data zeros nonce
  = if Plain.accepts data zeros nonce
    then Some (Plain.Block (sha256_hex (Plain.combined data nonce)) data nonce)
    else Plain.search fuel data zeros (Number_increment nonce).
Proof. reflexivity. Qed.

Lemma Timestamped_search_unfold
      (fuel : nat) (data : string) (ts zeros nonce : Z) :
  Timestamped.search (S fuel) data ts zeros nonce
  = if Timestamped.accepts data ts zeros nonce
    then Some (Timestamped.Block
                 (sha256_hex (Timestamped.combined data ts nonce))
                 data nonce ts)
    else Timestamped.search fuel data ts zeros (Number_increment nonce).
Proof. reflexivity. Qed.

(** The two loops differ only in the message, and are handled by the same
    steps: [unfold_eq] is the equation of one round of the loop. *)
Ltac skip_one_attempt unfold_eq IH Hfail :=
  cbn [Nat.add]; rewrite unfold_eq, Hfail by lia;
  rewrite Number_increment_below by lia;
  rewrite IH by (lia || (intros ? ?; apply Hfail; lia)); f_equal; lia.

Ltac break_at_least skip_eq unfold_eq Hacc Hleast :=
  split;
  [ rewrite <- (Nat.add_0_r (Z.to_nat _));
    rewrite skip_eq by (lia || (intros ? ?; apply Hleast; lia));
    reflexivity
  | let extra := fresh "extra" in
    intros extra;
    match goal with
    | |- context [(S (Z.to_nat ?n) + extra)%nat] =>
        replace (S (Z.to_nat n) + extra)%nat
          with (Z.to_nat n + S extra)%nat by lia
    end;
    rewrite skip_eq by (lia || (intros ? ?; apply Hleast; lia));
    rewrite unfold_eq, Z.add_0_l, Z2Nat.id, Hacc by lia;
    reflexivity ].

Ltac stuck_one_attempt unfold_eq IH Hfail nonce :=
  rewrite unfold_eq, Hfail by lia;
  destruct (Z.eq_dec nonce max_exact_integer) as [Hat | Hbelow];
  [ rewrite Number_increment_at_most by lia; apply IH; assumption
  | rewrite Number_increment_below by lia;
    apply IH; [lia | intros ? ?; apply Hfail; lia] ].

(** Failed attempts only move the nonce: after [k] of them that stay within
    [2^53] the loop stands at [nonce + k] with [k] units of fuel less. *)
Lemma Plain_search_skip (k fuel : nat) (data : string) (zeros nonce : Z) :
  nonce + Z.of_nat k <= max_exact_integer ->
  (forall m, nonce <= m < nonce + Z.of_nat k ->
             Plain.accepts data zeros m = false) ->
  Plain.search (k + fuel) data zeros nonce
  = Plain.search fuel data zeros (nonce + Z.of_nat k).
Proof.
  revert nonce. induction k as [|k IH]; intros nonce Hmax Hfail.
  - cbn [Nat.add]. f_equal. lia.
  - skip_one_attempt Plain_search_unfold IH Hfail.
Qed.

Lemma Timestamped_search_skip
      (k fuel : nat) (data : string) (ts zeros nonce : Z) :
  nonce + Z.of_nat k <= max_exact_integer ->
  (forall m, nonce <= m < nonce + Z.of_nat k ->
             Timestamped.accepts data ts zeros m = false) ->
  Timestamped.search (k + fuel) data ts zeros nonce
  = Timestamped.search fuel data ts zeros (nonce + Z.of_nat k).
Proof.
  revert nonce. induction k as [|k IH]; intros nonce Hmax Hfail.
  - cbn [Nat.add]. f_equal. lia.
  - skip_one_attempt Timestamped_search_unfold IH Hfail.
Qed.

(** When no nonce from the current one up to [2^53] is accepted, the loop
    does not end: it reaches [2^53], where [nonce++] changes nothing, and
    hashes the same message for ever. *)
Lemma Plain_search_stuck (fuel : nat) (data : string) (zeros nonce : Z) :
  nonce <= max_exact_integer ->
  (forall m, nonce <= m <= max_exact_integer ->
             Plain.accepts data zeros m = false) ->
  Plain.search fuel data zeros nonce = None.
Proof.
  revert nonce. induction fuel as [|fuel IH]; intros nonce Hmax Hfail;
    [reflexivity|].
  stuck_one_attempt Plain_search_unfold IH Hfail nonce.
Qed.

Lemma Timestamped_search_stuck
      (fuel : nat) (data : string) (ts zeros nonce : Z) :
  nonce <= max_exact_integer ->
  (forall m, nonce <= m <= max_exact_integer ->
             Timestamped.accepts data ts zeros m = false) ->
  Timestamped.search fuel data ts zeros nonce = None.
Proof.
  revert nonce. induction fuel as [|fuel IH]; intros nonce Hmax Hfail;
    [reflexivity|].
  stuck_one_attempt Timestamped_search_unfold IH Hfail nonce.
Qed.

(** With the least accepted nonce [n0], not beyond [2^53], the loop breaks
    in its round [n0 + 1] and not before. *)
Lemma Plain_createBlock_least (data : string) (zeros n0 : Z) :
  0 <= n0 <= max_exact_integer ->
  Plain.accepts data zeros n0 = true ->
  (forall m, 0 <= m < n0 -> Plain.accepts data zeros m = false) ->
  Plain.createBlock (Z.to_nat n0) data zeros = None
  /\ forall extra,
      Plain.createBlock (S (Z.to_nat n0) + extra) data zeros
      = Some (Plain.Block (sha256_hex (Plain.combined data n0)) data n0).
Proof.
  intros Hn0 Hacc Hleast. unfold Plain.createBlock.
  break_at_least Plain_search_skip Plain_search_unfold Hacc Hleast.
Qed.

Lemma Timestamped_createBlock_least (now : Z) (data : string) (zeros n0 : Z) :
  0 <= n0 <= max_exact_integer ->
  Timestamped.accepts data now zeros n0 = true ->
  (forall m, 0 <= m < n0 -> Timestamped.accepts data now zeros m = false) ->
  Timestamped.createBlock (Z.to_nat n0) now data zeros = None
  /\ forall extra,
      Timestamped.createBlock (S (Z.to_nat n0) + extra) now data zeros
      = Some (Timestamped.Block
                (sha256_hex (Timestamped.combined data now n0)) data n0 now).
Proof.
  intros Hn0 Hacc Hleast. unfold Timestamped.createBlock.
  break_at_least Timestamped_search_skip Timestamped_search_unfold
                 Hacc Hleast.
Qed.

(** C3: when some nonce that the counter reaches (from 0 to [2^53], where
    [nonce++] stops changing it) passes the difficulty test, [createBlock]
    returns the block of the least such nonce [n0].  The nonce starts at 0
    and goes up by one per failed attempt, so the loop breaks in round
    [n0 + 1] and not before; the hashed message is [data], the timestamp read
    once before the loop (first variant only) and the nonce, as decimal text
    with nothing between; [hash] is the lowercase hexadecimal text of the
    digest. *)
Theorem createBlock_least_nonce (data : string) (startingZeros now : Z) :
  exact_integer now ->
  ((exists n, 0 <= n <= max_exact_integer
              /\ Timestamped.accepts data now startingZeros n = true) ->
   exists n0,
     0 <= n0 <= max_exact_integer
     /\ hasLeadingZeroBits
          (sha256_digest
             ((data ++ Number_toString now) ++ Number_toString n0))
          startingZeros = true
     /\ (forall m, 0 <= m < n0 ->
           hasLeadingZeroBits
             (sha256_digest
                ((data ++ Number_toString now) ++ Number_toString m))
             startingZeros = false)
     /\ Timestamped.createBlock (Z.to_nat n0) now data startingZeros = None
     /\ forall fuel, (Z.to_nat n0 < fuel)%nat ->
          Timestamped.createBlock fuel now data startingZeros
          = Some (Timestamped.Block
                    (Buffer_toString_hex
                       (sha256_digest
                          ((data ++ Number_toString now)
                           ++ Number_toString n0)))
                    data n0 now))
  /\
  ((exists n, 0 <= n <= max_exact_integer
              /\ Plain.accepts data startingZeros n = true) ->
   exists n0,
     0 <= n0 <= max_exact_integer
     /\ hasLeadingZeroBits
          (sha256_digest (data ++ Number_toString n0)) startingZeros = true
     /\ (forall m, 0 <= m < n0 ->
           hasLeadingZeroBits
             (sha256_digest (data ++ Number_toString m)) startingZeros
           = false)
     /\ Plain.createBlock (Z.to_nat n0) data startingZeros = None
     /\ forall fuel, (Z.to_nat n0 < fuel)%nat ->
          Plain.createBlock fuel data startingZeros
          = Some (Plain.Block
                    (Buffer_toString_hex
                       (sha256_digest (data ++ Number_toString n0)))
                    data n0)).
Proof.
  intros _. split; intros (n & Hn & Hacc).
  - destruct (least_accepted (Timestamped.accepts data now startingZeros) n
                ltac:(lia) Hacc) as (n0 & Hn0 & Hacc0 & Hleast).
    destruct (Timestamped_createBlock_least now data startingZeros n0
                ltac:(lia) Hacc0 Hleast) as [Hnone Hsome].
    exists n0. repeat split; try lia; try assumption.
    intros fuel Hfuel.
    replace fuel with (S (Z.to_nat n0) + (fuel - S (Z.to_nat n0)))%nat by lia.
    apply Hsome.
  - destruct (least_accepted (Plain.accepts data startingZeros) n
                ltac:(lia) Hacc) as (n0 & Hn0 & Hacc0 & Hleast).
    destruct (Plain_createBlock_least data startingZeros n0
                ltac:(lia) Hacc0 Hleast) as [Hnone Hsome].
    exists n0. repeat split; try lia; try assumption.
    intros fuel Hfuel.
    replace fuel with (S (Z.to_nat n0) + (fuel - S (Z.to_nat n0)))%nat by lia.
    apply Hsome.
Qed.

Lemma createBlock_least_nonce_witness :
  (exists n0,
     0 <= n0 <= max_exact_integer
     /\ hasLeadingZeroBits
          (sha256_digest
             (("abc" ++ Number_toString 1700000000000) ++ Number_toString n0))
          8 = true
     /\ (forall m, 0 <= m < n0 ->
           hasLeadingZeroBits
             (sha256_digest
                (("abc" ++ Number_toString 1700000000000)
                 ++ Number_toString m))
             8 = false)
     /\ Timestamped.createBlock (Z.to_nat n0) 1700000000000 "abc" 8 = None
     /\ forall fuel, (Z.to_nat n0 < fuel)%nat ->
          Timestamped.createBlock fuel 1700000000000 "abc" 8
          = Some (Timestamped.Block
                    (Buffer_toString_hex
                       (sha256_digest
                          (("abc" ++ Number_toString 1700000000000)
                           ++ Number_toString n0)))
                    "abc" n0 1700000000000))
  /\
  (exists n0,
     0 <= n0 <= max_exact_integer
     /\ hasLeadingZeroBits
          (sha256_digest ("abc" ++ Number_toString n0)) 8 = true
     /\ (forall m, 0 <= m < n0 ->
           hasLeadingZeroBits
             (sha256_digest ("abc" ++ Number_toString m)) 8 = false)
     /\ Plain.createBlock (Z.to_nat n0) "abc" 8 = None
     /\ forall fuel, (Z.to_nat n0 < fuel)%nat ->
          Plain.createBlock fuel "abc" 8
          = Some (Plain.Block
                    (Buffer_toString_hex
                       (sha256_digest ("abc" ++ Number_toString n0)))
                    "abc" n0)).
Proof.
  assert (Hnow : exact_integer 1700000000000)
    by (unfold exact_integer, max_exact_integer; lia).
  split.
  - apply (createBlock_least_nonce "abc" 8 1700000000000 Hnow).
    exists 13. split; [unfold max_exact_integer; lia | vm_compute; reflexivity].
  - apply (createBlock_least_nonce "abc" 8 1700000000000 Hnow).
    exists 252.
    split; [unfold max_exact_integer; lia | vm_compute; reflexivity].
Defined.

(** ** Strings *)

Lemma append_nil_l (b : string) : ("" ++ b)%string = b.
Proof. reflexivity. Qed.

Lemma append_cons (ch : ascii) (a b : string) :
  (String ch a ++ b)%string = String ch (a ++ b).
Proof. reflexivity. Qed.

Lemma append_assoc (a b c : string) : ((a ++ b) ++ c = a ++ (b ++ c))%string.
Proof.
  induction a as [|ch a IH]; [reflexivity|].
  rewrite !append_cons, IH. reflexivity.
Qed.

(** Appends are normalised to the right, with the characters in front. *)
Create Rewrite HintDb append.
#[local] Hint Rewrite append_assoc append_cons append_nil_l : append.

Lemma length_append (a b : string) :
  String.length (a ++ b) = (String.length a + String.length b)%nat.
Proof.
  induction a as [|ch a IH]; [reflexivity|].
  rewrite append_cons. cbn [String.length]. rewrite IH. reflexivity.
Qed.

Lemma append_inj_l (a b c : string) : (a ++ b = a ++ c)%string -> b = c.
Proof.
  induction a as [|ch a IH]; intros H; [exact H|].
  rewrite !append_cons in H. injection H as H. auto.
Qed.

Lemma append_inj_r (a b c : string) : (a ++ c = b ++ c)%string -> a = b.
Proof.
  revert b. induction a as [|ch a IH]; intros [|ch' b] H.
  - reflexivity.
  - apply (f_equal String.length) in H.
    rewrite append_nil_l, append_cons in H. cbn [String.length] in H.
    rewrite length_append in H. lia.
  - apply (f_equal String.length) in H.
    rewrite append_nil_l, append_cons in H. cbn [String.length] in H.
    rewrite length_append in H. lia.
  - rewrite !append_cons in H. injection H as -> H. f_equal. auto.
Qed.

(** ** JSON: what is written is read back *)

(** One character of a quoted string is read back as itself. *)
Lemma parse_quote_char (c : ascii) (tail : string) :
  parse_string_chars (quote_char c ++ tail)
  = prepend c (parse_string_chars tail).
Proof.
  destruct c as [b0 b1 b2 b3 b4 b5 b6 b7].
  destruct b0, b1, b2, b3, b4, b5, b6, b7; reflexivity.
Qed.

Lemma parse_quote_chars (s rest : string) :
  parse_string_chars (quote_chars s ++ String dquote rest)
  = Done (Parsed s true rest).
Proof.
  induction s as [|c s IH]; [reflexivity|].
  cbn [quote_chars]. rewrite append_assoc, parse_quote_char, IH.
  reflexivity.
Qed.

(** *** Numerals *)

Lemma span_digits_numeral (d : Decimal.uint) (rest : string) :
  span_digits rest = (EmptyString, rest) ->
  span_digits (NilEmpty.string_of_uint d ++ rest)
  = (NilEmpty.string_of_uint d, rest).
Proof.
  intros Hrest.
  induction d as [|d IH|d IH|d IH|d IH|d IH|d IH|d IH|d IH|d IH|d IH];
    [exact Hrest|..];
    cbn [NilEmpty.string_of_uint]; rewrite append_cons;
    cbn [span_digits]; rewrite IH; reflexivity.
Qed.

(** A normalised numeral has a zero in front only when it is ["0"]. *)
Lemma unorm_leading_zero (d d' : Decimal.uint) :
  Decimal.unorm d = Decimal.D0 d' -> d' = Decimal.Nil.
Proof.
  induction d; cbn [Decimal.unorm]; intros H; try discriminate H; auto.
  injection H as <-. reflexivity.
Qed.

Lemma to_uint_leading_zero (p : positive) (d' : Decimal.uint) :
  Pos.to_uint p <> Decimal.D0 d'.
Proof.
  intros H.
  assert (Hnorm : Decimal.unorm (Pos.to_uint p) = Pos.to_uint p).
  { pose proof (DecimalZ.to_of (Decimal.Pos (Pos.to_uint p))) as Hto.
    cbn [Z.of_int Decimal.norm] in Hto.
    unfold Z.of_uint in Hto. rewrite DecimalPos.Unsigned.of_to in Hto.
    cbn in Hto. injection Hto as Hto. symmetry. exact Hto. }
  rewrite H in Hnorm. apply unorm_leading_zero in Hnorm. subst d'.
  exact (DecimalPos.Unsigned.to_uint_nonzero p H).
Qed.

Lemma parse_digits_numeral (p : positive) (rest : string) :
  ends_numeral rest ->
  parse_digits (NilEmpty.string_of_uint (Pos.to_uint p) ++ rest)
  = Done (Z.pos p, rest).
Proof.
  intros (c & r & -> & Hc).
  assert (Hspan : span_digits (String c r) = (EmptyString, String c r))
    by (destruct Hc as [-> | ->]; reflexivity).
  unfold parse_digits. rewrite (span_digits_numeral _ _ Hspan).
  cbn [fst snd].
  pose proof (DecimalPos.Unsigned.to_uint_nonnil p) as Hnil.
  pose proof (to_uint_leading_zero p) as Hzero.
  pose proof (DecimalPos.Unsigned.of_to p) as Hof.
  pose proof (NilEmpty.usu (Pos.to_uint p)) as Husu.
  destruct (Pos.to_uint p) as [|d|d|d|d|d|d|d|d|d|d];
    [congruence | exfalso; apply (Hzero d); reflexivity | ..].
  all: cbn [NilEmpty.string_of_uint] in *.
  all: rewrite Husu.
  all: unfold Z.of_uint; rewrite Hof.
  all: reflexivity.
Qed.

Lemma parse_unsigned_numeral (negative : bool) (p : positive) (rest : string) :
  ends_numeral rest ->
  parse_unsigned negative (NilEmpty.string_of_uint (Pos.to_uint p) ++ rest)
  = Done (Parsed (JNum (if negative then Z.neg p else Z.pos p)) true rest).
Proof.
  intros Hrest. unfold parse_unsigned.
  rewrite (parse_digits_numeral p rest Hrest). cbn [bind fst snd].
  destruct Hrest as (c & r & -> & [-> | ->]); destruct negative; reflexivity.
Qed.

Lemma parse_number_toString (n : Z) (rest : string) :
  ends_numeral rest ->
  parse_number (Number_toString n ++ rest) = Done (Parsed (JNum n) true rest).
Proof.
  intros Hrest.
  destruct n as [|p|p]; unfold Number_toString;
    cbn [Z.to_int NilZero.string_of_int NilZero.string_of_uint].
  - destruct Hrest as (c & r & -> & [-> | ->]); reflexivity.
  - pose proof (parse_unsigned_numeral false p _ Hrest) as Hnum.
    pose proof (DecimalPos.Unsigned.to_uint_nonnil p) as Hnil.
    destruct (Pos.to_uint p) as [|d|d|d|d|d|d|d|d|d|d]; [congruence|..].
    all: cbn [NilZero.string_of_uint NilEmpty.string_of_uint] in *.
    all: rewrite append_cons in *.
    all: cbv beta iota delta [parse_number]; exact Hnum.
  - pose proof (parse_unsigned_numeral true p _ Hrest) as Hnum.
    pose proof (DecimalPos.Unsigned.to_uint_nonnil p) as Hnil.
    destruct (Pos.to_uint p) as [|d|d|d|d|d|d|d|d|d|d]; [congruence|..].
    all: cbn [NilZero.string_of_uint] in *.
    all: rewrite append_cons.
    all: cbv beta iota delta [parse_number]; exact Hnum.
Qed.

(** *** Members and objects *)

Lemma Number_toString_head (n : Z) :
  exists c t, Number_toString n = String c t
              /\ In c ["-"; "0"; "1"; "2"; "3"; "4"; "5"; "6"; "7"; "8"; "9"]%char.
Proof.
  unfold Number_toString.
  destruct n as [|p|p]; cbn [Z.to_int NilZero.string_of_int].
  - exists "0"%char, EmptyString. split; [reflexivity | cbn; tauto].
  - pose proof (DecimalPos.Unsigned.to_uint_nonnil p) as Hnil.
    destruct (Pos.to_uint p) as [|d|d|d|d|d|d|d|d|d|d]; [congruence|..];
      cbn [NilZero.string_of_uint NilEmpty.string_of_uint];
      eexists _, _; (split; [reflexivity | cbn; tauto]).
  - eexists _, _. split; [reflexivity | cbn; tauto].
Qed.

Lemma parse_value_quoted (fuel : nat) (chars : string) :
  parse_value (S fuel) (String " " (String dquote chars))
  = let* p := parse_string_chars chars in
    Done (Parsed (JStr (value p)) (exact p) (rest p)).
Proof. reflexivity. Qed.

Lemma parse_value_numeral (fuel : nat) (c : ascii) (t : string) :
  In c ["-"; "0"; "1"; "2"; "3"; "4"; "5"; "6"; "7"; "8"; "9"]%char ->
  parse_value (S fuel) (String " " (String c t)) = parse_number (String c t).
Proof.
  cbn [In]. intros H.
  repeat (destruct H as [<- | H]; [reflexivity|]). destruct H.
Qed.

(** A scalar after [": "] is read back, up to what follows it. *)
Lemma parse_value_scalar (fuel : nat) (v : jsval) (rest : string) :
  scalar_member (EmptyString, v) ->
  ends_numeral rest ->
  parse_value (S fuel) (String " " (JSON_stringify_scalar v ++ rest))
  = Done (Parsed v true rest).
Proof.
  intros Hv Hrest. destruct v as [| |b|n| |s|l|l]; try destruct Hv.
  - cbn [JSON_stringify_scalar].
    destruct (Number_toString_head n) as (c & t & Heq & Hc).
    pose proof (parse_number_toString n rest Hrest) as Hnum.
    rewrite Heq in *. rewrite append_cons in *.
    rewrite parse_value_numeral by exact Hc. exact Hnum.
  - cbn [JSON_stringify_scalar]. unfold JSON_quote.
    rewrite append_cons, append_assoc, append_cons, append_nil_l.
    rewrite parse_value_quoted, parse_quote_chars. reflexivity.
Qed.

Lemma JSON_stringify_member_append (k : string) (v : jsval) (tail : string) :
  (JSON_stringify_member (k, v) ++ tail)%string
  = String " " (String " " (String " " (String " " (String dquote
      (quote_chars k
       ++ String dquote
            (String ":" (String " " (JSON_stringify_scalar v ++ tail)))))))).
Proof.
  unfold JSON_stringify_member, JSON_quote. cbn [fst snd].
  autorewrite with append. reflexivity.
Qed.

Lemma parse_members_quoted (fuel : nat) (chars : string) :
  parse_members (S fuel)
    (String newline (String " " (String " " (String " " (String " "
       (String dquote chars))))))
  = let* k := parse_string_chars chars in
    match skip_whitespace (rest k) with
    | String ":" r1 =>
        let* p := parse_value fuel r1 in
        match skip_whitespace (rest p) with
        | String "," r2 =>
            let* q := parse_members fuel r2 in
            Done (Parsed ((value k, value p) :: value q)
                         (exact k && exact p && exact q) (rest q))
        | String "}" r2 =>
            Done (Parsed [(value k, value p)] (exact k && exact p) r2)
        | _ => Throw
        end
    | _ => Throw
    end.
Proof. reflexivity. Qed.

(** One member on its line, then a comma and the next line, or the line of
    the closing brace. *)
Lemma parse_members_member (fuel : nat) (k : string) (v : jsval)
      (tail : string) :
  scalar_member (k, v) ->
  ends_numeral tail ->
  parse_members (S (S fuel))
    (String newline (JSON_stringify_member (k, v) ++ tail))
  = match skip_whitespace tail with
    | String "," r2 =>
        let* q := parse_members (S fuel) r2 in
        Done (Parsed ((k, v) :: value q) (exact q) (rest q))
    | String "}" r2 => Done (Parsed [(k, v)] true r2)
    | _ => Throw
    end.
Proof.
  intros Hv Htail.
  rewrite JSON_stringify_member_append, parse_members_quoted.
  rewrite parse_quote_chars. cbn [bind value exact rest].
  change (skip_whitespace (String ":" ?x)) with (String ":" x).
  cbv beta iota.
  rewrite parse_value_scalar by assumption. reflexivity.
Qed.

Lemma parse_members_ok (ms : list (string * jsval)) :
  ms <> [] ->
  Forall scalar_member ms ->
  forall (fuel : nat) (rest : string),
    (length ms < fuel)%nat ->
    parse_members fuel
      (String newline
         (String.concat member_separator (map JSON_stringify_member ms)
          ++ String newline (String "}" rest)))
    = Done (Parsed ms true rest).
Proof.
  induction ms as [|[k v] ms IH]; [congruence|].
  intros _ Hall fuel rest Hfuel.
  apply Forall_cons_iff in Hall as [Hm Hall].
  cbn [length] in Hfuel.
  destruct fuel as [|[|fuel]]; try lia.
  destruct ms as [|m ms].
  - cbn [map String.concat].
    rewrite parse_members_member;
      [reflexivity | assumption | eexists _, _; eauto].
  - change (String.concat member_separator
              (map JSON_stringify_member ((k, v) :: m :: ms)))
      with (JSON_stringify_member (k, v)
            ++ member_separator
            ++ String.concat member_separator
                 (map JSON_stringify_member (m :: ms)))%string.
    rewrite !append_assoc. unfold member_separator at 1.
    rewrite !append_cons, append_nil_l.
    rewrite parse_members_member;
      [| assumption | eexists _, _; eauto].
    change (skip_whitespace (String "," ?x)) with (String "," x).
    cbv beta iota.
    rewrite IH; [reflexivity | congruence | assumption | cbn [length] in *; lia].
Qed.

Lemma parse_value_object (fuel : nat) (chars : string) :
  parse_value (S fuel)
    (String "{" (String newline (String " " (String " " (String " "
       (String " " (String dquote chars)))))))
  = let* p :=
      parse_members fuel
        (String newline (String " " (String " " (String " " (String " "
           (String dquote chars)))))) in
    Done (Parsed (JObj (value p)) (exact p) (rest p)).
Proof. reflexivity. Qed.

Lemma JSON_stringify_length (ms : list (string * jsval)) :
  (length ms
   < String.length
       (String.concat member_separator (map JSON_stringify_member ms)
        ++ String newline "}"))%nat.
Proof.
  induction ms as [|m ms IH]; [vm_compute; lia|].
  destruct ms as [|m' ms].
  - cbn [map String.concat length]. rewrite length_append.
    cbn [String.length]. lia.
  - change (String.concat member_separator
              (map JSON_stringify_member (m :: m' :: ms)))
      with (JSON_stringify_member m
            ++ member_separator
            ++ String.concat member_separator
                 (map JSON_stringify_member (m' :: ms)))%string.
    rewrite !append_assoc, !length_append.
    rewrite length_append in IH.
    unfold member_separator at 1. cbn [length String.length] in *. lia.
Qed.

(** [JSON.parse(JSON.stringify(object, null, 4))] gives the object back,
    member for member, when the members are strings and integers. *)
Lemma JSON_parse_stringify (ms : list (string * jsval)) :
  ms <> [] ->
  Forall scalar_member ms ->
  JSON_parse (JSON_stringify ms) = Done (JObj ms).
Proof.
  intros Hne Hall. unfold JSON_parse, JSON_stringify.
  fold member_separator.
  pose proof (JSON_stringify_length ms) as Hlen.
  pose proof (parse_members_ok ms Hne Hall) as Hms.
  cbn [String.length].
  set (body := (String.concat member_separator
                  (map JSON_stringify_member ms)
                ++ String newline "}")%string) in *.
  destruct ms as [|[k v] ms]; [congruence|].
  assert (Hshape : exists chars,
             String newline body
             = String newline (String " " (String " " (String " "
                 (String " " (String dquote chars)))))).
  { subst body. destruct ms as [|m ms].
    - cbn [map String.concat]. rewrite JSON_stringify_member_append.
      eexists. reflexivity.
    - change (String.concat member_separator
                (map JSON_stringify_member ((k, v) :: m :: ms)))
        with (JSON_stringify_member (k, v)
              ++ member_separator
              ++ String.concat member_separator
                   (map JSON_stringify_member (m :: ms)))%string.
      rewrite append_assoc, JSON_stringify_member_append.
      eexists. reflexivity. }
  destruct Hshape as (chars & Hshape).
  rewrite Hshape, parse_value_object, <- Hshape.
  subst body. rewrite (Hms _ EmptyString) by lia.
  reflexivity.
Qed.

(** ** The verifier on what the miner saved *)

Lemma readFileSync_written (fs : gmap string file) (filePath text : string) :
  readFileSync (writeFileSync fs filePath text) filePath = Done text.
Proof.
  unfold readFileSync, writeFileSync. rewrite lookup_insert_eq. reflexivity.
Qed.

Lemma readFileSync_file (fs : gmap string file) (filePath text : string) :
  fs !! filePath = Some (File text) -> readFileSync fs filePath = Done text.
Proof. intros H. unfold readFileSync. rewrite H. reflexivity. Qed.

Lemma Plain_verifyBlock_parsed
      (fs : gmap string file) (filePath text : string) (block : jsval) :
  fs !! filePath = Some (File text) ->
  JSON_parse text = Done block ->
  Plain.verifyBlock fs filePath = try_catch_false (Plain.verify_parsed block).
Proof.
  intros Hfile Hparse. unfold Plain.verifyBlock, Plain.verifyBlock_body.
  rewrite (readFileSync_file _ _ _ Hfile). cbn [bind]. rewrite Hparse.
  reflexivity.
Qed.

Lemma Timestamped_verifyBlock_parsed
      (fs : gmap string file) (filePath text : string) (block : jsval) :
  fs !! filePath = Some (File text) ->
  JSON_parse text = Done block ->
  Timestamped.verifyBlock fs filePath
  = try_catch_false (Timestamped.verify_parsed block).
Proof.
  intros Hfile Hparse.
  unfold Timestamped.verifyBlock, Timestamped.verifyBlock_body.
  rewrite (readFileSync_file _ _ _ Hfile). cbn [bind]. rewrite Hparse.
  reflexivity.
Qed.

(** On an object the verifier compares the stored [hash] with the digest of
    the sum of the other properties. *)
Lemma Plain_verify_parsed_object (ms : list (string * jsval)) :
  Plain.verify_parsed (JObj ms)
  = let* combined :=
      js_add (member_value "data" ms) (member_value "nonce" ms) in
    let* computedHash := createHash_update_digest_hex combined in
    Done (strict_equals_string computedHash (member_value "hash" ms)).
Proof. reflexivity. Qed.

Lemma Timestamped_verify_parsed_object (ms : list (string * jsval)) :
  Timestamped.verify_parsed (JObj ms)
  = let* sum :=
      js_add (member_value "data" ms) (member_value "timestamp" ms) in
    let* combined := js_add sum (member_value "nonce" ms) in
    let* computedHash := createHash_update_digest_hex combined in
    Done (strict_equals_string computedHash (member_value "hash" ms)).
Proof. reflexivity. Qed.

(** On the members of a block, the sum is the message of the miner. *)
Lemma Plain_verify_parsed_block (h d : string) (n : Z) :
  Plain.verify_parsed (JObj (Plain.members (Plain.Block h d n)))
  = Done (String.eqb (sha256_hex (Plain.combined d n)) h).
Proof. reflexivity. Qed.

Lemma Timestamped_verify_parsed_block (h d : string) (n t : Z) :
  Timestamped.verify_parsed
    (JObj (Timestamped.members (Timestamped.Block h d n t)))
  = Done (String.eqb (sha256_hex (Timestamped.combined d t n)) h).
Proof. reflexivity. Qed.

Lemma Plain_members_scalar (b : Plain.block) :
  Plain.members b <> [] /\ Forall scalar_member (Plain.members b).
Proof.
  split; [discriminate|]. unfold Plain.members.
  repeat constructor.
Qed.

Lemma Timestamped_members_scalar (b : Timestamped.block) :
  Timestamped.members b <> [] /\ Forall scalar_member (Timestamped.members b).
Proof.
  split; [discriminate|]. unfold Timestamped.members.
  repeat constructor.
Qed.

(** A saved block is verified by comparing its [hash] with the digest of its
    message. *)
Lemma Plain_verifyBlock_saved
      (fs : gmap string file) (filePath : string) (b : Plain.block) :
  Plain.verifyBlock (Plain.saveBlock fs filePath b) filePath
  = Some (String.eqb
            (sha256_hex (Plain.combined (Plain.data b) (Plain.nonce b)))
            (Plain.hash b)).
Proof.
  destruct (Plain_members_scalar b) as [Hne Hall].
  rewrite (Plain_verifyBlock_parsed _ filePath
             (JSON_stringify (Plain.members b)) (JObj (Plain.members b))).
  - destruct b as [h d n]. rewrite Plain_verify_parsed_block. reflexivity.
  - unfold Plain.saveBlock, writeFileSync. apply lookup_insert_eq.
  - apply JSON_parse_stringify; assumption.
Qed.

Lemma Timestamped_verifyBlock_saved
      (fs : gmap string file) (filePath : string) (b : Timestamped.block) :
  Timestamped.verifyBlock (Timestamped.saveBlock fs filePath b) filePath
  = Some (String.eqb
            (sha256_hex (Timestamped.combined (Timestamped.data b)
                           (Timestamped.timestamp b) (Timestamped.nonce b)))
            (Timestamped.hash b)).
Proof.
  destruct (Timestamped_members_scalar b) as [Hne Hall].
  rewrite (Timestamped_verifyBlock_parsed _ filePath
             (JSON_stringify (Timestamped.members b))
             (JObj (Timestamped.members b))).
  - destruct b as [h d n t]. rewrite Timestamped_verify_parsed_block.
    reflexivity.
  - unfold Timestamped.saveBlock, writeFileSync. apply lookup_insert_eq.
  - apply JSON_parse_stringify; assumption.
Qed.

(** Whatever the loop returns carries the digest of its own message. *)
Lemma Plain_search_sound
      (fuel : nat) (data : string) (zeros nonce : Z) (b : Plain.block) :
  Plain.search fuel data zeros nonce = Some b ->
  Plain.data b = data
  /\ nonce <= Plain.nonce b
  /\ Plain.hash b = sha256_hex (Plain.combined data (Plain.nonce b))
  /\ Plain.accepts data zeros (Plain.nonce b) = true.
Proof.
  revert nonce. induction fuel as [|fuel IH]; intros nonce H.
  - discriminate H.
  - rewrite Plain_search_unfold in H.
    destruct (Plain.accepts data zeros nonce) eqn:Hacc.
    + injection H as <-. cbn. repeat split; [lia | exact Hacc].
    + apply IH in H. destruct H as (? & ? & ? & ?).
      pose proof (Number_increment_bounds nonce).
      repeat split; try assumption. lia.
Qed.

Lemma Timestamped_search_sound
      (fuel : nat) (data : string) (ts zeros nonce : Z)
      (b : Timestamped.block) :
  Timestamped.search fuel data ts zeros nonce = Some b ->
  Timestamped.data b = data
  /\ Timestamped.timestamp b = ts
  /\ nonce <= Timestamped.nonce b
  /\ Timestamped.hash b
     = sha256_hex (Timestamped.combined data ts (Timestamped.nonce b))
  /\ Timestamped.accepts data ts zeros (Timestamped.nonce b) = true.
Proof.
  revert nonce. induction fuel as [|fuel IH]; intros nonce H.
  - discriminate H.
  - rewrite Timestamped_search_unfold in H.
    destruct (Timestamped.accepts data ts zeros nonce) eqn:Hacc.
    + injection H as <-. cbn. repeat split; [lia | exact Hacc].
    + apply IH in H. destruct H as (? & ? & ? & ? & ?).
      pose proof (Number_increment_bounds nonce).
      repeat split; try assumption. lia.
Qed.

(** C1: for every [data] and every [startingZeros] that some nonce meets
    among those that the counter reaches (from 0 to [2^53]), [createBlock]
    returns a block, and every block that it returns, once written with
    [JSON.stringify] and [writeFileSync], is found valid by [verifyBlock] on
    that file; in both variants. *)
Theorem createBlock_save_verify
        (fs : gmap string file) (filePath data : string)
        (startingZeros now : Z) :
  exact_integer now ->
  ((exists n, 0 <= n <= max_exact_integer
              /\ Timestamped.accepts data now startingZeros n = true) ->
   (exists fuel b,
      Timestamped.createBlock fuel now data startingZeros = Some b)
   /\ forall fuel b,
       Timestamped.createBlock fuel now data startingZeros = Some b ->
       Timestamped.verifyBlock (Timestamped.saveBlock fs filePath b) filePath
       = Some true)
  /\
  ((exists n, 0 <= n <= max_exact_integer
              /\ Plain.accepts data startingZeros n = true) ->
   (exists fuel b, Plain.createBlock fuel data startingZeros = Some b)
   /\ forall fuel b,
       Plain.createBlock fuel data startingZeros = Some b ->
       Plain.verifyBlock (Plain.saveBlock fs filePath b) filePath
       = Some true).
Proof.
  intros _. split; intros (n & Hn & Hacc); split.
  - destruct (least_accepted _ n ltac:(lia) Hacc)
      as (n0 & Hn0 & Hacc0 & Hleast).
    destruct (Timestamped_createBlock_least now data startingZeros n0
                ltac:(lia) Hacc0 Hleast) as [_ Hsome].
    eexists _, _. apply (Hsome 0%nat).
  - intros fuel b Hb. apply Timestamped_search_sound in Hb.
    destruct Hb as (Hd & Ht & _ & Hh & _).
    rewrite Timestamped_verifyBlock_saved, Hd, Ht, <- Hh, String.eqb_refl.
    reflexivity.
  - destruct (least_accepted _ n ltac:(lia) Hacc)
      as (n0 & Hn0 & Hacc0 & Hleast).
    destruct (Plain_createBlock_least data startingZeros n0
                ltac:(lia) Hacc0 Hleast) as [_ Hsome].
    eexists _, _. apply (Hsome 0%nat).
  - intros fuel b Hb. apply Plain_search_sound in Hb.
    destruct Hb as (Hd & _ & Hh & _).
    rewrite Plain_verifyBlock_saved, Hd, <- Hh, String.eqb_refl.
    reflexivity.
Qed.

Lemma createBlock_save_verify_witness :
  (exists b,
     Timestamped.createBlock 20 1700000000000 "abc" 8 = Some b
     /\ Timestamped.verifyBlock
          (Timestamped.saveBlock ∅ "block.json" b) "block.json" = Some true)
  /\
  (exists b,
     Plain.createBlock 300 "abc" 8 = Some b
     /\ Plain.verifyBlock (Plain.saveBlock ∅ "block.json" b) "block.json"
        = Some true).
Proof.
  assert (Hnow : exact_integer 1700000000000)
    by (unfold exact_integer, max_exact_integer; lia).
  split.
  - eexists. split; [vm_compute; reflexivity|].
    apply (proj1 (createBlock_save_verify ∅ "block.json" "abc"
                    8 1700000000000 Hnow)) with (fuel := 20%nat).
    + exists 13.
      split; [unfold max_exact_integer; lia | vm_compute; reflexivity].
    + vm_compute. reflexivity.
  - eexists. split; [vm_compute; reflexivity|].
    apply (proj2 (createBlock_save_verify ∅ "block.json" "abc"
                    8 1700000000000 Hnow)) with (fuel := 300%nat).
    + exists 252.
      split; [unfold max_exact_integer; lia | vm_compute; reflexivity].
    + vm_compute. reflexivity.
Defined.

(** ** Load and parse failures *)

(** A parsed value that is not an object makes the body throw: [null]
    cannot be destructured, and of anything else the four properties are
    [undefined], whose sum is [NaN], which [update] refuses. *)
Lemma verify_parsed_not_object (block : jsval) :
  (forall ms, block <> JObj ms) ->
  Timestamped.verify_parsed block = Throw
  /\ Plain.verify_parsed block = Throw.
Proof.
  intros Hobj. destruct block; try (split; reflexivity).
  exfalso. eapply Hobj. reflexivity.
Qed.

(** C6: when the file is missing or cannot be read, or its text is not JSON,
    or is JSON for something that is not an object, the [try] body throws,
    the [catch] returns [false], and that is what [verifyBlock] returns; in
    both variants. *)
Theorem verifyBlock_load_failure (fs : gmap string file) (filePath : string) :
  fs !! filePath = None
  \/ fs !! filePath = Some Unreadable
  \/ (exists text, fs !! filePath = Some (File text)
                   /\ JSON_parse text = Throw)
  \/ (exists text block, fs !! filePath = Some (File text)
                         /\ JSON_parse text = Done block
                         /\ forall ms, block <> JObj ms) ->
  (Timestamped.verifyBlock_body fs filePath = Throw
   /\ Timestamped.verifyBlock fs filePath = Some false)
  /\ (Plain.verifyBlock_body fs filePath = Throw
      /\ Plain.verifyBlock fs filePath = Some false).
Proof.
  unfold Timestamped.verifyBlock, Plain.verifyBlock,
    Timestamped.verifyBlock_body, Plain.verifyBlock_body, readFileSync.
  intros [H | [H | [(text & H & Hparse)
                   | (text & block & H & Hparse & Hobj)]]];
    rewrite H; cbn [bind]; rewrite ?Hparse; cbn [bind];
    try (repeat split; fail).
  destruct (verify_parsed_not_object block Hobj) as [-> ->].
  repeat split.
Qed.

Lemma verifyBlock_load_failure_witness :
  ((Timestamped.verifyBlock_body ∅ "block.json" = Throw
    /\ Timestamped.verifyBlock ∅ "block.json" = Some false)
   /\ (Plain.verifyBlock_body ∅ "block.json" = Throw
       /\ Plain.verifyBlock ∅ "block.json" = Some false))
  /\
  ((Timestamped.verifyBlock_body {[ "block.json"%string := Unreadable ]}
      "block.json" = Throw
    /\ Timestamped.verifyBlock {[ "block.json"%string := Unreadable ]}
         "block.json" = Some false)
   /\ (Plain.verifyBlock_body {[ "block.json"%string := Unreadable ]}
         "block.json" = Throw
       /\ Plain.verifyBlock {[ "block.json"%string := Unreadable ]}
            "block.json" = Some false))
  /\
  ((Timestamped.verifyBlock_body
      {[ "block.json"%string := File "{ hash: 1 }" ]} "block.json" = Throw
    /\ Timestamped.verifyBlock
         {[ "block.json"%string := File "{ hash: 1 }" ]} "block.json"
       = Some false)
   /\ (Plain.verifyBlock_body
         {[ "block.json"%string := File "{ hash: 1 }" ]} "block.json" = Throw
       /\ Plain.verifyBlock
            {[ "block.json"%string := File "{ hash: 1 }" ]} "block.json"
          = Some false))
  /\
  ((Timestamped.verifyBlock_body
      {[ "block.json"%string := File "[1, 2]" ]} "block.json" = Throw
    /\ Timestamped.verifyBlock
         {[ "block.json"%string := File "[1, 2]" ]} "block.json"
       = Some false)
   /\ (Plain.verifyBlock_body
         {[ "block.json"%string := File "[1, 2]" ]} "block.json" = Throw
       /\ Plain.verifyBlock
            {[ "block.json"%string := File "[1, 2]" ]} "block.json"
          = Some false)).
Proof.
  split; [|split; [|split]].
  - apply (verifyBlock_load_failure ∅ "block.json").
    left. apply lookup_empty.
  - apply (verifyBlock_load_failure
             {[ "block.json"%string := Unreadable ]} "block.json").
    right. left. apply lookup_singleton_eq.
  - apply (verifyBlock_load_failure
             {[ "block.json"%string := File "{ hash: 1 }" ]} "block.json").
    right. right. left. exists "{ hash: 1 }"%string.
    split; [apply lookup_singleton_eq | vm_compute; reflexivity].
  - apply (verifyBlock_load_failure
             {[ "block.json"%string := File "[1, 2]" ]} "block.json").
    right. right. right. exists "[1, 2]"%string, (JArr [JNum 1; JNum 2]).
    split; [apply lookup_singleton_eq|].
    split; [vm_compute; reflexivity | discriminate].
Defined.

(** ** What the verifier does not check *)

(** C10: [verifyBlock] only compares the stored hash with the recomputed
    one.  Every block with exact integers for its numbers whose [hash] is
    the digest of its message is found valid, whatever its leading bits:
    there are such blocks whose digest starts with a one bit, which
    [hasLeadingZeroBits] rejects for every positive difficulty. *)
Theorem verifyBlock_checks_equality_only :
  (forall (fs : gmap string file) (filePath : string) (b : Timestamped.block),
      exact_integer (Timestamped.nonce b) ->
      exact_integer (Timestamped.timestamp b) ->
      Timestamped.hash b
      = sha256_hex (Timestamped.combined (Timestamped.data b)
                      (Timestamped.timestamp b) (Timestamped.nonce b)) ->
      Timestamped.verifyBlock (Timestamped.saveBlock fs filePath b) filePath
      = Some true)
  /\ (forall (fs : gmap string file) (filePath : string) (b : Plain.block),
         exact_integer (Plain.nonce b) ->
         Plain.hash b
         = sha256_hex (Plain.combined (Plain.data b) (Plain.nonce b)) ->
         Plain.verifyBlock (Plain.saveBlock fs filePath b) filePath
         = Some true)
  /\ (forall zeros, 0 < zeros ->
         hasLeadingZeroBits
           (sha256_digest (Timestamped.combined "abc" 1700000000000 0)) zeros
         = false
         /\ hasLeadingZeroBits (sha256_digest (Plain.combined "abc" 1)) zeros
            = false).
Proof.
  split; [|split].
  - intros fs filePath b _ _ Hb.
    rewrite Timestamped_verifyBlock_saved, <- Hb, String.eqb_refl.
    reflexivity.
  - intros fs filePath b _ Hb.
    rewrite Plain_verifyBlock_saved, <- Hb, String.eqb_refl. reflexivity.
  - intros zeros Hz. unfold hasLeadingZeroBits. rewrite !scan_bytes_spec.
    split; apply Z.leb_gt; vm_compute digest_bits;
      cbn [leading_zero_bits]; lia.
Qed.

Lemma verifyBlock_checks_equality_only_witness :
  (Timestamped.verifyBlock
     (Timestamped.saveBlock ∅ "block.json"
        (Timestamped.Block
           (sha256_hex (Timestamped.combined "abc" 1700000000000 0))
           "abc" 0 1700000000000))
     "block.json" = Some true
   /\ hasLeadingZeroBits
        (sha256_digest (Timestamped.combined "abc" 1700000000000 0)) 1
      = false)
  /\ (Plain.verifyBlock
        (Plain.saveBlock ∅ "block.json"
           (Plain.Block (sha256_hex (Plain.combined "abc" 1)) "abc" 1))
        "block.json" = Some true
      /\ hasLeadingZeroBits (sha256_digest (Plain.combined "abc" 1)) 1
         = false).
Proof.
  pose proof verifyBlock_checks_equality_only as (HT & HP & Hbits).
  split; split.
  - apply HT;
      [unfold exact_integer, max_exact_integer; cbn; lia ..
      | reflexivity].
  - apply (Hbits 1). lia.
  - apply HP;
      [unfold exact_integer, max_exact_integer; cbn; lia | reflexivity].
  - apply (Hbits 1). lia.
Defined.

(** C9: the message is a concatenation with nothing between its parts, so
    different blocks have the same message.  In the second variant the block
    mined for ["abc"] at difficulty 8 has nonce 252, and the block with data
    ["abc2"] and nonce 52 has the same message and is found valid with the
    same hash.  In the first variant, at the time 1111111111111, the mined
    block has nonce 127, and data ["abc1"] with nonce 27 gives the same
    message with the same timestamp. *)
Theorem combined_message_not_injective :
  (exists b b' : Timestamped.block,
      Timestamped.createBlock 200 1111111111111 "abc" 8 = Some b
      /\ Timestamped.data b' <> Timestamped.data b
      /\ Timestamped.nonce b' <> Timestamped.nonce b
      /\ Timestamped.timestamp b' = Timestamped.timestamp b
      /\ Timestamped.hash b' = Timestamped.hash b
      /\ Timestamped.combined (Timestamped.data b') (Timestamped.timestamp b')
           (Timestamped.nonce b')
         = Timestamped.combined (Timestamped.data b) (Timestamped.timestamp b)
             (Timestamped.nonce b)
      /\ forall (fs : gmap string file) (filePath : string),
          Timestamped.verifyBlock (Timestamped.saveBlock fs filePath b')
            filePath = Some true)
  /\
  (exists b b' : Plain.block,
      Plain.createBlock 300 "abc" 8 = Some b
      /\ Plain.data b' <> Plain.data b
      /\ Plain.nonce b' <> Plain.nonce b
      /\ Plain.hash b' = Plain.hash b
      /\ Plain.combined (Plain.data b') (Plain.nonce b')
         = Plain.combined (Plain.data b) (Plain.nonce b)
      /\ forall (fs : gmap string file) (filePath : string),
          Plain.verifyBlock (Plain.saveBlock fs filePath b') filePath
          = Some true).
Proof.
  split.
  - exists (Timestamped.Block
              (sha256_hex (Timestamped.combined "abc" 1111111111111 127))
              "abc" 127 1111111111111),
           (Timestamped.Block
              (sha256_hex (Timestamped.combined "abc" 1111111111111 127))
              "abc1" 27 1111111111111).
    split; [vm_compute; reflexivity|].
    cbn [Timestamped.data Timestamped.nonce Timestamped.timestamp
           Timestamped.hash].
    repeat split; try discriminate.
    intros fs filePath. rewrite Timestamped_verifyBlock_saved.
    cbn [Timestamped.data Timestamped.nonce Timestamped.timestamp
           Timestamped.hash].
    change (Timestamped.combined "abc1" 1111111111111 27)
      with (Timestamped.combined "abc" 1111111111111 127).
    rewrite String.eqb_refl. reflexivity.
  - exists (Plain.Block (sha256_hex (Plain.combined "abc" 252)) "abc" 252),
           (Plain.Block (sha256_hex (Plain.combined "abc" 252)) "abc2" 52).
    split; [vm_compute; reflexivity|].
    cbn [Plain.data Plain.nonce Plain.hash].
    repeat split; try discriminate.
    intros fs filePath. rewrite Plain_verifyBlock_saved.
    cbn [Plain.data Plain.nonce Plain.hash].
    change (Plain.combined "abc2" 52) with (Plain.combined "abc" 252).
    rewrite String.eqb_refl. reflexivity.
Qed.

(** ** Tampering *)

Lemma Number_toString_inj (n n' : Z) :
  Number_toString n = Number_toString n' -> n = n'.
Proof.
  unfold Number_toString. intros H.
  assert (Hread : forall z, NilZero.int_of_string
                              (NilZero.string_of_int (Z.to_int z))
                            = Some (Z.to_int z)).
  { intros z. apply NilZero.isi; destruct z as [|p|p]; cbn [Z.to_int];
      try discriminate; intros Heq; injection Heq as Heq;
      exact (DecimalPos.Unsigned.to_uint_nonnil p Heq). }
  apply DecimalZ.to_int_inj.
  pose proof (Hread n) as Hn. rewrite H, Hread in Hn.
  injection Hn as Hn. symmetry. exact Hn.
Qed.

Lemma Plain_combined_data_inj (d d' : string) (n : Z) :
  Plain.combined d' n = Plain.combined d n -> d' = d.
Proof. unfold Plain.combined. apply append_inj_r. Qed.

Lemma Plain_combined_nonce_inj (d : string) (n n' : Z) :
  Plain.combined d n' = Plain.combined d n -> n' = n.
Proof.
  unfold Plain.combined. intros H. apply append_inj_l in H.
  apply Number_toString_inj. exact H.
Qed.

Lemma Timestamped_combined_data_inj (d d' : string) (t n : Z) :
  Timestamped.combined d' t n = Timestamped.combined d t n -> d' = d.
Proof.
  unfold Timestamped.combined. intros H.
  apply append_inj_r in H. apply append_inj_r in H. exact H.
Qed.

Lemma Timestamped_combined_nonce_inj (d : string) (t n n' : Z) :
  Timestamped.combined d t n' = Timestamped.combined d t n -> n' = n.
Proof.
  unfold Timestamped.combined. intros H. apply append_inj_l in H.
  apply Number_toString_inj. exact H.
Qed.

Lemma Some_eqb_false_iff (x y : string) :
  Some (String.eqb x y) = Some false <-> x <> y.
Proof.
  rewrite <- String.eqb_neq. split; [intros H; injection H; auto | intros ->; reflexivity].
Qed.

(** C5, as the code has it: on a valid block (its [hash] is the digest of
    its message, its [data] a well-formed string, its numbers exact
    integers), a change of the stored hash to another string is always
    detected; a change of [data] to another well-formed string, or of
    [nonce] to another exact integer, changes the message that is hashed,
    and is detected exactly when the digest of the changed message differs
    from the digest of the original one. *)
Theorem tamper_detection (fs : gmap string file) (filePath : string) :
  (forall b : Timestamped.block,
      well_formed_utf8 (Timestamped.data b) = true ->
      exact_integer (Timestamped.nonce b) ->
      exact_integer (Timestamped.timestamp b) ->
      Timestamped.hash b
      = sha256_hex (Timestamped.combined (Timestamped.data b)
                      (Timestamped.timestamp b) (Timestamped.nonce b)) ->
      (forall h', h' <> Timestamped.hash b ->
         Timestamped.verifyBlock
           (Timestamped.saveBlock fs filePath
              (Timestamped.Block h' (Timestamped.data b)
                 (Timestamped.nonce b) (Timestamped.timestamp b)))
           filePath = Some false)
      /\ (forall d', well_formed_utf8 d' = true ->
            d' <> Timestamped.data b ->
            Timestamped.combined d' (Timestamped.timestamp b)
              (Timestamped.nonce b)
            <> Timestamped.combined (Timestamped.data b)
                 (Timestamped.timestamp b) (Timestamped.nonce b)
            /\ (Timestamped.verifyBlock
                  (Timestamped.saveBlock fs filePath
                     (Timestamped.Block (Timestamped.hash b) d'
                        (Timestamped.nonce b) (Timestamped.timestamp b)))
                  filePath = Some false
                <-> sha256_hex (Timestamped.combined d'
                                  (Timestamped.timestamp b)
                                  (Timestamped.nonce b))
                    <> sha256_hex (Timestamped.combined (Timestamped.data b)
                                     (Timestamped.timestamp b)
                                     (Timestamped.nonce b))))
      /\ (forall n', exact_integer n' ->
            n' <> Timestamped.nonce b ->
            Timestamped.combined (Timestamped.data b)
              (Timestamped.timestamp b) n'
            <> Timestamped.combined (Timestamped.data b)
                 (Timestamped.timestamp b) (Timestamped.nonce b)
            /\ (Timestamped.verifyBlock
                  (Timestamped.saveBlock fs filePath
                     (Timestamped.Block (Timestamped.hash b)
                        (Timestamped.data b) n' (Timestamped.timestamp b)))
                  filePath = Some false
                <-> sha256_hex (Timestamped.combined (Timestamped.data b)
                                  (Timestamped.timestamp b) n')
                    <> sha256_hex (Timestamped.combined (Timestamped.data b)
                                     (Timestamped.timestamp b)
                                     (Timestamped.nonce b)))))
  /\
  (forall b : Plain.block,
      well_formed_utf8 (Plain.data b) = true ->
      exact_integer (Plain.nonce b) ->
      Plain.hash b = sha256_hex (Plain.combined (Plain.data b) (Plain.nonce b)) ->
      (forall h', h' <> Plain.hash b ->
         Plain.verifyBlock
           (Plain.saveBlock fs filePath
              (Plain.Block h' (Plain.data b) (Plain.nonce b)))
           filePath = Some false)
      /\ (forall d', well_formed_utf8 d' = true ->
            d' <> Plain.data b ->
            Plain.combined d' (Plain.nonce b)
            <> Plain.combined (Plain.data b) (Plain.nonce b)
            /\ (Plain.verifyBlock
                  (Plain.saveBlock fs filePath
                     (Plain.Block (Plain.hash b) d' (Plain.nonce b)))
                  filePath = Some false
                <-> sha256_hex (Plain.combined d' (Plain.nonce b))
                    <> sha256_hex (Plain.combined (Plain.data b)
                                     (Plain.nonce b))))
      /\ (forall n', exact_integer n' ->
            n' <> Plain.nonce b ->
            Plain.combined (Plain.data b) n'
            <> Plain.combined (Plain.data b) (Plain.nonce b)
            /\ (Plain.verifyBlock
                  (Plain.saveBlock fs filePath
                     (Plain.Block (Plain.hash b) (Plain.data b) n'))
                  filePath = Some false
                <-> sha256_hex (Plain.combined (Plain.data b) n')
                    <> sha256_hex (Plain.combined (Plain.data b)
                                     (Plain.nonce b))))).
Proof.
  split.
  - intros [h d n t]. cbn [Timestamped.hash Timestamped.data
                             Timestamped.nonce Timestamped.timestamp].
    intros _ _ _ ->. split; [|split].
    + intros h' Hh'. rewrite Timestamped_verifyBlock_saved.
      cbn [Timestamped.hash Timestamped.data Timestamped.nonce
             Timestamped.timestamp].
      apply Some_eqb_false_iff. congruence.
    + intros d' _ Hd'. split.
      * intros H. apply Hd'. exact (Timestamped_combined_data_inj _ _ _ _ H).
      * rewrite Timestamped_verifyBlock_saved.
        cbn [Timestamped.hash Timestamped.data Timestamped.nonce
               Timestamped.timestamp].
        apply Some_eqb_false_iff.
    + intros n' _ Hn'. split.
      * intros H. apply Hn'. exact (Timestamped_combined_nonce_inj _ _ _ _ H).
      * rewrite Timestamped_verifyBlock_saved.
        cbn [Timestamped.hash Timestamped.data Timestamped.nonce
               Timestamped.timestamp].
        apply Some_eqb_false_iff.
  - intros [h d n]. cbn [Plain.hash Plain.data Plain.nonce].
    intros _ _ ->. split; [|split].
    + intros h' Hh'. rewrite Plain_verifyBlock_saved.
      cbn [Plain.hash Plain.data Plain.nonce].
      apply Some_eqb_false_iff. congruence.
    + intros d' _ Hd'. split.
      * intros H. apply Hd'. exact (Plain_combined_data_inj _ _ _ H).
      * rewrite Plain_verifyBlock_saved.
        cbn [Plain.hash Plain.data Plain.nonce].
        apply Some_eqb_false_iff.
    + intros n' _ Hn'. split.
      * intros H. apply Hn'. exact (Plain_combined_nonce_inj _ _ _ H).
      * rewrite Plain_verifyBlock_saved.
        cbn [Plain.hash Plain.data Plain.nonce].
        apply Some_eqb_false_iff.
Qed.

Lemma tamper_detection_witness :
  Plain.verifyBlock
    (Plain.saveBlock ∅ "block.json"
       (Plain.Block "00" "abc" 252))
    "block.json" = Some false
  /\ Plain.combined "abd" 252 <> Plain.combined "abc" 252
  /\ Plain.combined "abc" 253 <> Plain.combined "abc" 252
  /\ Timestamped.verifyBlock
       (Timestamped.saveBlock ∅ "block.json"
          (Timestamped.Block "00" "abc" 13 1700000000000))
       "block.json" = Some false.
Proof.
  assert (Hexact : forall n, 0 <= n <= 1700000000000 -> exact_integer n)
    by (intros n Hn; unfold exact_integer, max_exact_integer; lia).
  pose proof (tamper_detection ∅ "block.json") as [HT HP].
  specialize (HP (Plain.Block (sha256_hex (Plain.combined "abc" 252))
                    "abc" 252)
                 eq_refl (Hexact 252 ltac:(lia)) eq_refl).
  specialize (HT (Timestamped.Block
                    (sha256_hex (Timestamped.combined "abc" 1700000000000 13))
                    "abc" 13 1700000000000)
                 eq_refl (Hexact 13 ltac:(lia))
                 (Hexact 1700000000000 ltac:(lia)) eq_refl).
  destruct HP as (Hh & Hd & Hn). destruct HT as (HhT & _ & _).
  split; [|split; [|split]].
  - apply (Hh "00"%string). vm_compute. discriminate.
  - apply (Hd "abd"%string); [reflexivity | discriminate].
  - apply (Hn 253); [apply Hexact; lia | discriminate].
  - apply (HhT "00"%string). vm_compute. discriminate.
Defined.

(** C5 as stated fails: a change that keeps the text of a field and only
    changes its type is a change to a different value that goes unnoticed.
    The block mined for ["abc"] at difficulty 8 is valid with the number 252
    as its nonce, and is still found valid with the string ["252"]. *)
Lemma tamper_nonce_type_undetected :
  Plain.createBlock 300 "abc" 8
  = Some (Plain.Block (sha256_hex "abc252") "abc" 252)
  /\ Plain.verifyBlock
       {[ "block.json"%string :=
            File (JSON_stringify
                    [("hash", JStr (sha256_hex "abc252"));
                     ("data", JStr "abc"); ("nonce", JNum 252)]%string) ]}
       "block.json" = Some true
  /\ JStr "252" <> JNum 252
  /\ Plain.verifyBlock
       {[ "block.json"%string :=
            File (JSON_stringify
                    [("hash", JStr (sha256_hex "abc252"));
                     ("data", JStr "abc"); ("nonce", JStr "252")]%string) ]}
       "block.json" = Some true.
Proof.
  split; [vm_compute; reflexivity|].
  split; [vm_compute; reflexivity|].
  split; [discriminate|].
  vm_compute; reflexivity.
Qed.

(** ** Records with a missing field *)


(** The hash function returns or throws: it is never outside the model. *)
Lemma createHash_update_digest_hex_cases (x : jsval) :
  (exists text, x = JStr text
                /\ createHash_update_digest_hex x = Done (sha256_hex text))
  \/ createHash_update_digest_hex x = Throw.
Proof. destruct x; cbn; eauto. Qed.

(** So do the conversion to a string and the sum. *)
Lemma element_texts_definite
      (text_of : jsval -> comp string) (l : list jsval) :
  Forall (fun e => text_of e <> Beyond) l ->
  element_texts text_of l <> Beyond.
Proof.
  induction 1 as [|e l He Hl IH]; [discriminate|].
  change (element_texts text_of (e :: l))
    with (let* text := match e with
                       | JUndefined | JNull => Done EmptyString
                       | _ => text_of e
                       end in
          let* texts := element_texts text_of l in
          Done (text :: texts)).
  destruct (element_texts text_of l); [| |contradiction];
    destruct e; try discriminate;
    destruct (text_of _); try discriminate; contradiction.
Qed.

Lemma ToString_definite : forall v : jsval, ToString v <> Beyond.
Proof.
  fix IH 1. intros [| |[|]|n| |s|elems|members]; cbn [ToString];
    try discriminate.
  - assert (H : Forall (fun e => ToString e <> Beyond) elems).
    { induction elems as [|e l IHl]; constructor; [apply IH | exact IHl]. }
    apply element_texts_definite in H.
    destruct (element_texts ToString elems);
      [discriminate | discriminate | contradiction].
  - destruct (lookup_member _ _); discriminate.
Qed.

Lemma js_add_definite (a b : jsval) : js_add a b <> Beyond.
Proof.
  assert (Hprim : forall v, ToPrimitive v <> Beyond).
  { intros v. pose proof (ToString_definite v) as Hv.
    destruct v; try discriminate; unfold ToPrimitive;
      destruct (ToString _); try discriminate; contradiction. }
  unfold js_add.
  pose proof (Hprim a) as Ha. pose proof (Hprim b) as Hb.
  destruct (ToPrimitive a) as [pa| |]; [|discriminate|contradiction].
  destruct (ToPrimitive b) as [pb| |]; [|discriminate|contradiction].
  cbn [bind].
  pose proof (ToString_definite pa) as Hta.
  pose proof (ToString_definite pb) as Htb.
  destruct pa, pb;
    repeat match goal with
           | |- context [match ToNumber ?p with _ => _ end] =>
               destruct (ToNumber p)
           end;
    try discriminate;
    destruct (ToString _); try discriminate; try contradiction;
    cbn [bind];
    destruct (ToString _); try discriminate; contradiction.
Qed.



(** A stored hash that is missing, or is no string, is equal to no computed
    hash: the body returns [false] or throws. *)
Lemma verify_parsed_hash_not_string (ms : list (string * jsval)) :
  (forall s, member_value "hash" ms <> JStr s) ->
  try_catch_false (Timestamped.verify_parsed (JObj ms)) = Some false
  /\ try_catch_false (Plain.verify_parsed (JObj ms)) = Some false.
Proof.
  intros Hhash.
  assert (Hneq : forall c, strict_equals_string c (member_value "hash" ms)
                           = false).
  { intros c. destruct (member_value "hash" ms); try reflexivity.
    exfalso. eapply Hhash. reflexivity. }
  rewrite Timestamped_verify_parsed_object, Plain_verify_parsed_object.
  split.
  - pose proof (js_add_definite (member_value "data" ms)
                  (member_value "timestamp" ms)) as Hsum.
    destruct (js_add _ _) as [sum| |]; [|reflexivity|contradiction].
    cbn [bind].
    pose proof (js_add_definite sum (member_value "nonce" ms)) as Hall.
    destruct (js_add _ _) as [combined| |]; [|reflexivity|contradiction].
    cbn [bind].
    destruct (createHash_update_digest_hex_cases combined)
      as [(m & _ & ->) | ->]; cbn [bind try_catch_false];
      rewrite ?Hneq; reflexivity.
  - pose proof (js_add_definite (member_value "data" ms)
                  (member_value "nonce" ms)) as Hall.
    destruct (js_add _ _) as [combined| |]; [|reflexivity|contradiction].
    cbn [bind].
    destruct (createHash_update_digest_hex_cases combined)
      as [(m & _ & ->) | ->]; cbn [bind try_catch_false];
      rewrite ?Hneq; reflexivity.
Qed.




(** ** Collisions

    The digest has 32 bytes, so among more than [2^256] messages two have
    the same digest. *)

Lemma bytes_value_bound (l : list Z) :
  Forall is_byte l -> 0 <= bytes_value l < 256 ^ Z.of_nat (length l).
Proof.
  induction 1 as [|b l Hb Hl IH]; [cbn; lia|].
  cbn [bytes_value length]. rewrite Nat2Z.inj_succ, Z.pow_succ_r by lia.
  unfold is_byte in Hb. lia.
Qed.

Lemma bytes_value_inj (l l' : list Z) :
  Forall is_byte l -> Forall is_byte l' -> length l = length l' ->
  bytes_value l = bytes_value l' -> l = l'.
Proof.
  intros Hl. revert l'. induction Hl as [|b l Hb Hl IH];
    intros [|b' l'] Hl' Hlen Hval; try discriminate Hlen; [reflexivity|].
  apply Forall_cons_iff in Hl' as [Hb' Hl'].
  cbn [bytes_value] in Hval. unfold is_byte in *.
  assert (b = b') by lia. subst b'.
  f_equal. apply IH; [assumption | cbn in Hlen; lia | lia].
Qed.

Lemma land_255_byte (x : Z) : is_byte (Z.land x 255).
Proof.
  unfold is_byte. change 255 with (Z.ones 8).
  rewrite Z.land_ones by lia. apply Z.mod_pos_bound. lia.
Qed.

Lemma be_bytes_4 (x : Z) :
  Forall is_byte (Sha256.be_bytes 4 x) /\ length (Sha256.be_bytes 4 x) = 4%nat.
Proof.
  split; [|reflexivity]. unfold Sha256.be_bytes. cbn [seq rev app map].
  repeat (apply Forall_cons_iff; split; [apply land_255_byte|]).
  apply Forall_nil_2.
Qed.

Lemma concat_be_bytes (words : list Z) :
  Forall is_byte (concat (map (Sha256.be_bytes 4) words))
  /\ length (concat (map (Sha256.be_bytes 4) words))
     = (4 * length words)%nat.
Proof.
  induction words as [|w words [IHb IHl]]; [split; [constructor|reflexivity]|].
  cbn [map concat]. destruct (be_bytes_4 w) as [Hb Hl]. split.
  - apply Forall_app. split; assumption.
  - rewrite length_app, Hl, IHl. cbn [length]. lia.
Qed.

Lemma compress_length (h block : list Z) :
  length h = 8%nat -> length (Sha256.compress h block) = 8%nat.
Proof.
  intros Hh. unfold Sha256.compress.
  rewrite length_map, length_combine, Hh. reflexivity.
Qed.

Lemma process_length (nblocks : nat) (h words : list Z) :
  length h = 8%nat -> length (Sha256.process nblocks h words) = 8%nat.
Proof.
  revert h words. induction nblocks as [|n IH]; intros h words Hh;
    [exact Hh|].
  cbn [Sha256.process]. apply IH, compress_length, Hh.
Qed.

Lemma sha256_digest_bytes (text : string) :
  Forall is_byte (sha256_digest text) /\ length (sha256_digest text) = 32%nat.
Proof.
  unfold sha256_digest, Sha256.hash_bytes.
  destruct (concat_be_bytes (Sha256.hash_words (bytes_of_string text)))
    as [Hb Hl].
  split; [exact Hb|]. rewrite Hl. unfold Sha256.hash_words.
  rewrite process_length; reflexivity.
Qed.

(** Among the messages of any sequence, two have the same digest. *)
Lemma sha256_collision (message : nat -> string) :
  exists i j : nat,
    (i < j)%nat /\ sha256_digest (message i) = sha256_digest (message j).
Proof.
  set (bound := 256 ^ 32).
  set (f := fun i => Z.to_nat (bytes_value (sha256_digest (message i)))).
  assert (Hrange : forall i,
             0 <= bytes_value (sha256_digest (message i)) < bound).
  { intros i. destruct (sha256_digest_bytes (message i)) as [Hb Hl].
    pose proof (bytes_value_bound _ Hb) as H. rewrite Hl in H. exact H. }
  destruct (nat_pigeonhole f (S (Z.to_nat bound)) (Z.to_nat bound))
    as (i & j & Hij & Hf).
  - apply Nat.lt_succ_diag_r.
  - intros i _. unfold f. apply Z2Nat.inj_lt; apply Hrange || apply Z.lt_le_incl.
    all: try apply Hrange.
    apply Z.le_lt_trans with (bytes_value (sha256_digest (message i)));
      apply Hrange.
  - exists i, j. split; [apply Hij|].
    destruct (sha256_digest_bytes (message i)) as [Hbi Hli].
    destruct (sha256_digest_bytes (message j)) as [Hbj Hlj].
    apply bytes_value_inj; try assumption; [congruence|].
    unfold f in Hf. apply Z2Nat.inj in Hf; [exact Hf | apply Hrange ..].
Qed.

(** X17: even among blocks with a string for [data] and an integer for
    [nonce], some change of [data] alone goes unnoticed: there is a valid block and a
    different [data] with the same digest. *)
Lemma tamper_data_collision :
  exists (b : Plain.block) (d' : string),
    Plain.hash b = sha256_hex (Plain.combined (Plain.data b) (Plain.nonce b))
    /\ d' <> Plain.data b
    /\ forall (fs : gmap string file) (filePath : string),
        Plain.verifyBlock
          (Plain.saveBlock fs filePath
             (Plain.Block (Plain.hash b) d' (Plain.nonce b)))
          filePath = Some true.
Proof.
  destruct (sha256_collision
              (fun i => Plain.combined (Number_toString (Z.of_nat i)) 0))
    as (i & j & Hij & Hcol).
  exists (Plain.Block
            (sha256_hex (Plain.combined (Number_toString (Z.of_nat i)) 0))
            (Number_toString (Z.of_nat i)) 0),
         (Number_toString (Z.of_nat j)).
  cbn [Plain.hash Plain.data Plain.nonce]. split; [reflexivity|]. split.
  - intros H. apply Number_toString_inj in H. lia.
  - intros fs filePath. rewrite Plain_verifyBlock_saved.
    cbn [Plain.hash Plain.data Plain.nonce].
    unfold sha256_hex. rewrite Hcol, String.eqb_refl. reflexivity.
Qed.

(** * Further properties *)

(** ** The difficulty predicate *)

Lemma hasLeadingZeroBits_nonpositive (digest : list Z) (zeros : Z) :
  zeros <= 0 -> hasLeadingZeroBits digest zeros = true.
Proof.
  intros Hz. unfold hasLeadingZeroBits. rewrite scan_bytes_spec, Z.add_0_l.
  pose proof (leading_zero_bits_nonneg (digest_bits digest)) as Hnn.
  apply Z.leb_le. lia.
Qed.

(** X1: the predicate is monotone: a digest that meets a difficulty meets
    every lower one; and every digest meets a difficulty that is zero or
    negative. *)
Theorem hasLeadingZeroBits_monotone (digest : list Z) (zeros zeros' : Z) :
  (zeros' <= zeros ->
   hasLeadingZeroBits digest zeros = true ->
   hasLeadingZeroBits digest zeros' = true)
  /\ (zeros <= 0 -> hasLeadingZeroBits digest zeros = true).
Proof.
  split; [|apply hasLeadingZeroBits_nonpositive].
  unfold hasLeadingZeroBits. rewrite !scan_bytes_spec, !Z.add_0_l.
  intros Hle H. apply Z.leb_le in H. apply Z.leb_le. lia.
Qed.

Lemma hasLeadingZeroBits_monotone_witness :
  hasLeadingZeroBits [0; 1; 255] 11 = true
  /\ hasLeadingZeroBits [0; 1; 255] (-3) = true.
Proof.
  split.
  - apply (proj1 (hasLeadingZeroBits_monotone [0; 1; 255] 15 11)).
    + lia.
    + vm_compute. reflexivity.
  - apply (proj2 (hasLeadingZeroBits_monotone [0; 1; 255] (-3) 0)). lia.
Defined.

Lemma leading_zero_bits_app (a b : list bool) :
  leading_zero_bits a <= leading_zero_bits (a ++ b)
  /\ (leading_zero_bits a < Z.of_nat (length a) ->
      leading_zero_bits (a ++ b) = leading_zero_bits a)
  /\ (leading_zero_bits a = Z.of_nat (length a) ->
      leading_zero_bits (a ++ b)
      = Z.of_nat (length a) + leading_zero_bits b).
Proof.
  induction a as [|x a (IH1 & IH2 & IH3)].
  - cbn. pose proof (leading_zero_bits_nonneg b). repeat split; lia.
  - pose proof (leading_zero_bits_nonneg a) as Hnn.
    pose proof (leading_zero_bits_le_length a) as Hle.
    destruct x; cbn [app leading_zero_bits length];
      rewrite ?Nat2Z.inj_succ; repeat split; lia.
Qed.

Lemma digest_bits_app (p s : list Z) :
  digest_bits (p ++ s) = digest_bits p ++ digest_bits s.
Proof. unfold digest_bits. rewrite map_app, concat_app. reflexivity. Qed.

(** X2: only a prefix of the buffer is read: two buffers with the same first
    bytes, at least [zeros] bits of them, get the same answer. *)
Theorem hasLeadingZeroBits_prefix (prefix rest rest' : list Z) (zeros : Z) :
  zeros <= 8 * Z.of_nat (length prefix) ->
  hasLeadingZeroBits (prefix ++ rest) zeros
  = hasLeadingZeroBits (prefix ++ rest') zeros.
Proof.
  intros Hz. unfold hasLeadingZeroBits.
  rewrite !scan_bytes_spec, !Z.add_0_l, !digest_bits_app.
  pose proof (digest_bits_length prefix) as Hlen.
  pose proof (leading_zero_bits_le_length (digest_bits prefix)) as Hle.
  destruct (leading_zero_bits_app (digest_bits prefix) (digest_bits rest))
    as (H1 & H2 & H3).
  destruct (leading_zero_bits_app (digest_bits prefix) (digest_bits rest'))
    as (H1' & H2' & H3').
  pose proof (leading_zero_bits_nonneg (digest_bits rest)).
  pose proof (leading_zero_bits_nonneg (digest_bits rest')).
  destruct (Z.eq_dec (leading_zero_bits (digest_bits prefix))
                     (Z.of_nat (length (digest_bits prefix)))) as [Heq|Hne].
  - rewrite (H3 Heq), (H3' Heq).
    transitivity true; [|symmetry]; apply Z.leb_le; lia.
  - rewrite H2, H2' by lia. reflexivity.
Qed.

Lemma hasLeadingZeroBits_prefix_witness :
  hasLeadingZeroBits ([0; 7] ++ [1; 2; 3]) 13
  = hasLeadingZeroBits ([0; 7] ++ [255]) 13.
Proof.
  apply (hasLeadingZeroBits_prefix [0; 7] [1; 2; 3] [255] 13).
  cbn [length]. lia.
Defined.

(** *** The predicate as a bound on the digest *)

Lemma bits_value_bound (bits : list bool) :
  0 <= bits_value bits < 2 ^ Z.of_nat (length bits).
Proof.
  induction bits as [|b bits IH]; [cbn; lia|].
  cbn [bits_value length]. rewrite Nat2Z.inj_succ, Z.pow_succ_r by lia.
  destruct b; lia.
Qed.

Lemma bits_value_app (a b : list bool) :
  bits_value (a ++ b)
  = bits_value a * 2 ^ Z.of_nat (length b) + bits_value b.
Proof.
  induction a as [|x a IH]; [cbn; lia|].
  cbn [app bits_value]. rewrite IH, length_app, Nat2Z.inj_add.
  rewrite Z.pow_add_r by lia. destruct x; lia.
Qed.

(** At least [z] leading zero bits, that is a value below [2^(length - z)]. *)
Lemma leading_zero_bits_value (bits : list bool) (z : Z) :
  0 <= z <= Z.of_nat (length bits) ->
  z <= leading_zero_bits bits
  <-> bits_value bits < 2 ^ (Z.of_nat (length bits) - z).
Proof.
  revert z. induction bits as [|b bits IH]; intros z Hz.
  - cbn in *. assert (z = 0) by lia. subst. cbn. lia.
  - cbn [length] in Hz. rewrite Nat2Z.inj_succ in Hz.
    pose proof (bits_value_bound bits) as Hb.
    pose proof (leading_zero_bits_nonneg bits) as Hnn.
    cbn [leading_zero_bits bits_value length]. rewrite Nat2Z.inj_succ.
    destruct (Z.eq_dec z 0) as [->|Hz0].
    + rewrite Z.sub_0_r, Z.pow_succ_r by lia. destruct b; split; lia.
    + destruct b.
      * split; [lia|]. intros H. exfalso.
        assert (2 ^ (Z.succ (Z.of_nat (length bits)) - z)
                <= 2 ^ Z.of_nat (length bits))
          by (apply Z.pow_le_mono_r; lia).
        lia.
      * specialize (IH (z - 1) ltac:(lia)).
        replace (Z.succ (Z.of_nat (length bits)) - z)
          with (Z.of_nat (length bits) - (z - 1)) by lia.
        rewrite Z.add_0_l. rewrite <- IH. lia.
Qed.

Lemma all_bytes_spec (b : Z) : is_byte b -> In b all_bytes.
Proof.
  intros Hb. unfold all_bytes, is_byte in *. apply in_map_iff.
  exists (Z.to_nat b). split; [lia|]. apply in_seq. lia.
Qed.

Lemma byte_bits_value (b : Z) : is_byte b -> bits_value (byte_bits b) = b.
Proof.
  intros Hb. apply all_bytes_spec in Hb.
  assert (Hall : forallb (fun b => bits_value (byte_bits b) =? b) all_bytes
                 = true) by (vm_compute; reflexivity).
  rewrite forallb_forall in Hall. apply Z.eqb_eq. apply Hall. exact Hb.
Qed.

Lemma digest_bits_value (digest : list Z) :
  Forall is_byte digest -> bits_value (digest_bits digest) = be_value digest.
Proof.
  induction 1 as [|b l Hb Hl IH]; [reflexivity|].
  cbn [digest_bits map concat be_value]. fold (digest_bits l).
  rewrite bits_value_app, byte_bits_value, IH by assumption.
  rewrite digest_bits_length. f_equal. f_equal.
  rewrite Z.pow_mul_r by lia. reflexivity.
Qed.

(** X3: for a buffer of bytes and a difficulty within its bit length, the
    predicate holds exactly when the buffer, read as a big-endian number, is
    below [2 ^ (bit length - zeros)]. *)
Theorem hasLeadingZeroBits_iff_below_target (digest : list Z) (zeros : Z) :
  Forall is_byte digest ->
  0 <= zeros <= 8 * Z.of_nat (length digest) ->
  hasLeadingZeroBits digest zeros = true
  <-> be_value digest < 2 ^ (8 * Z.of_nat (length digest) - zeros).
Proof.
  intros Hbytes Hz. unfold hasLeadingZeroBits.
  rewrite scan_bytes_spec, Z.add_0_l, Z.leb_le.
  rewrite <- digest_bits_value, <- digest_bits_length by assumption.
  apply leading_zero_bits_value. rewrite digest_bits_length. exact Hz.
Qed.

Lemma hasLeadingZeroBits_iff_below_target_witness :
  hasLeadingZeroBits [0; 31; 200] 11 = true
  <-> be_value [0; 31; 200] < 2 ^ (8 * Z.of_nat (length [0; 31; 200]) - 11).
Proof.
  apply (hasLeadingZeroBits_iff_below_target [0; 31; 200] 11).
  - repeat constructor; unfold is_byte; lia.
  - cbn [length]. lia.
Defined.

(** ** The miner *)

(** The nonce that the loop returns is the first accepted one from where it
    started, and it is reached within the fuel. *)
Lemma Plain_search_first
      (fuel : nat) (data : string) (zeros nonce : Z) (b : Plain.block) :
  Plain.search fuel data zeros nonce = Some b ->
  Plain.nonce b < nonce + Z.of_nat fuel
  /\ forall m, nonce <= m < Plain.nonce b ->
               Plain.accepts data zeros m = false.
Proof.
  revert nonce. induction fuel as [|fuel IH]; intros nonce H.
  - discriminate H.
  - rewrite Plain_search_unfold in H.
    destruct (Plain.accepts data zeros nonce) eqn:Hacc.
    + injection H as <-. cbn [Plain.nonce]. split; [lia|]. intros m Hm. lia.
    + apply IH in H. destruct H as [Hlt Hfirst].
      pose proof (Number_increment_bounds nonce) as Hinc. split; [lia|].
      intros m Hm. destruct (Z.eq_dec m nonce) as [->|Hne]; [exact Hacc|].
      apply Hfirst. lia.
Qed.

Lemma Timestamped_search_first
      (fuel : nat) (data : string) (ts zeros nonce : Z)
      (b : Timestamped.block) :
  Timestamped.search fuel data ts zeros nonce = Some b ->
  Timestamped.nonce b < nonce + Z.of_nat fuel
  /\ forall m, nonce <= m < Timestamped.nonce b ->
               Timestamped.accepts data ts zeros m = false.
Proof.
  revert nonce. induction fuel as [|fuel IH]; intros nonce H.
  - discriminate H.
  - rewrite Timestamped_search_unfold in H.
    destruct (Timestamped.accepts data ts zeros nonce) eqn:Hacc.
    + injection H as <-. cbn [Timestamped.nonce]. split; [lia|].
      intros m Hm. lia.
    + apply IH in H. destruct H as [Hlt Hfirst].
      pose proof (Number_increment_bounds nonce) as Hinc. split; [lia|].
      intros m Hm. destruct (Z.eq_dec m nonce) as [->|Hne]; [exact Hacc|].
      apply Hfirst. lia.
Qed.

(** X4: whatever [createBlock] returns, after however many rounds, is a
    block of the data given (and of the time read), with a nonce from 0 up
    that took fewer rounds than the fuel, whose digest meets the difficulty
    while the digest of every smaller nonce does not, and whose [hash] is the
    hexadecimal text of that digest. *)
Theorem createBlock_returns_first_accepted
        (fuel : nat) (now : Z) (data : string) (startingZeros : Z) :
  (forall b,
      Timestamped.createBlock fuel now data startingZeros = Some b ->
      Timestamped.data b = data
      /\ Timestamped.timestamp b = now
      /\ 0 <= Timestamped.nonce b < Z.of_nat fuel
      /\ Timestamped.hash b
         = Buffer_toString_hex
             (sha256_digest
                ((data ++ Number_toString now)
                 ++ Number_toString (Timestamped.nonce b)))
      /\ hasLeadingZeroBits
           (sha256_digest
              ((data ++ Number_toString now)
               ++ Number_toString (Timestamped.nonce b)))
           startingZeros = true
      /\ forall m, 0 <= m < Timestamped.nonce b ->
           hasLeadingZeroBits
             (sha256_digest
                ((data ++ Number_toString now) ++ Number_toString m))
             startingZeros = false)
  /\
  (forall b,
      Plain.createBlock fuel data startingZeros = Some b ->
      Plain.data b = data
      /\ 0 <= Plain.nonce b < Z.of_nat fuel
      /\ Plain.hash b
         = Buffer_toString_hex
             (sha256_digest (data ++ Number_toString (Plain.nonce b)))
      /\ hasLeadingZeroBits
           (sha256_digest (data ++ Number_toString (Plain.nonce b)))
           startingZeros = true
      /\ forall m, 0 <= m < Plain.nonce b ->
           hasLeadingZeroBits
             (sha256_digest (data ++ Number_toString m)) startingZeros
           = false).
Proof.
  split; intros b Hb.
  - pose proof (Timestamped_search_sound _ _ _ _ _ _ Hb)
      as (Hd & Ht & Hge & Hh & Hacc).
    pose proof (Timestamped_search_first _ _ _ _ _ _ Hb) as (Hlt & Hfirst).
    repeat split; try assumption; lia.
  - pose proof (Plain_search_sound _ _ _ _ _ Hb) as (Hd & Hge & Hh & Hacc).
    pose proof (Plain_search_first _ _ _ _ _ Hb) as (Hlt & Hfirst).
    repeat split; try assumption; lia.
Qed.

Lemma createBlock_returns_first_accepted_witness :
  (hasLeadingZeroBits
     (sha256_digest
        (("abc" ++ Number_toString 1700000000000) ++ Number_toString 13))
     8 = true
   /\ forall m, 0 <= m < 13 ->
        hasLeadingZeroBits
          (sha256_digest
             (("abc" ++ Number_toString 1700000000000) ++ Number_toString m))
          8 = false)
  /\ (hasLeadingZeroBits (sha256_digest ("abc" ++ Number_toString 26)) 4
      = true
      /\ forall m, 0 <= m < 26 ->
           hasLeadingZeroBits (sha256_digest ("abc" ++ Number_toString m)) 4
           = false).
Proof.
  split.
  - destruct (proj1 (createBlock_returns_first_accepted
                       20 1700000000000 "abc" 8)
                (Timestamped.Block
                   (sha256_hex (Timestamped.combined "abc" 1700000000000 13))
                   "abc" 13 1700000000000))
      as (_ & _ & _ & _ & Hacc & Hfirst).
    + vm_compute. reflexivity.
    + split; [exact Hacc | exact Hfirst].
  - destruct (proj2 (createBlock_returns_first_accepted
                       40 1700000000000 "abc" 4)
                (Plain.Block (sha256_hex (Plain.combined "abc" 26)) "abc" 26))
      as (_ & _ & _ & Hacc & Hfirst).
    + vm_compute. reflexivity.
    + split; [exact Hacc | exact Hfirst].
Defined.

(** A digest has 256 bits, and no more leading zero bits than that. *)
Lemma sha256_rejects_beyond_256 (text : string) (zeros : Z) :
  256 < zeros -> hasLeadingZeroBits (sha256_digest text) zeros = false.
Proof.
  intros Hz. unfold hasLeadingZeroBits. rewrite scan_bytes_spec, Z.add_0_l.
  apply Z.leb_gt.
  pose proof (leading_zero_bits_le_length (digest_bits (sha256_digest text)))
    as Hle.
  rewrite digest_bits_length in Hle.
  destruct (sha256_digest_bytes text) as [_ Hlen]. rewrite Hlen in Hle. lia.
Qed.

(** X5: a difficulty above 256 bits is never met, so the loop of
    [createBlock] does not end: with any fuel, nothing is returned. *)
Theorem createBlock_never_returns_beyond_256
        (fuel : nat) (now : Z) (data : string) (startingZeros : Z) :
  256 < startingZeros ->
  Timestamped.createBlock fuel now data startingZeros = None
  /\ Plain.createBlock fuel data startingZeros = None.
Proof.
  intros Hz. unfold Timestamped.createBlock, Plain.createBlock. split.
  - apply Timestamped_search_stuck; [unfold max_exact_integer; lia|].
    intros m _. apply sha256_rejects_beyond_256, Hz.
  - apply Plain_search_stuck; [unfold max_exact_integer; lia|].
    intros m _. apply sha256_rejects_beyond_256, Hz.
Qed.

Lemma createBlock_never_returns_beyond_256_witness :
  Timestamped.createBlock 1000 1700000000000 "abc" 257 = None
  /\ Plain.createBlock 1000 "abc" 257 = None.
Proof.
  apply (createBlock_never_returns_beyond_256
           1000 1700000000000 "abc" 257).
  lia.
Defined.

(** X6: with a difficulty of zero, or below, the first attempt is accepted:
    [createBlock] returns in its first round, with nonce 0 and the digest of
    the data (and the time) followed by ["0"]. *)
Theorem createBlock_no_difficulty
        (fuel : nat) (now : Z) (data : string) (startingZeros : Z) :
  startingZeros <= 0 ->
  Timestamped.createBlock (S fuel) now data startingZeros
  = Some (Timestamped.Block
            (sha256_hex ((data ++ Number_toString now) ++ "0"))
            data 0 now)
  /\ Plain.createBlock (S fuel) data startingZeros
     = Some (Plain.Block (sha256_hex (data ++ "0")) data 0).
Proof.
  intros Hz.
  unfold Timestamped.createBlock, Plain.createBlock.
  rewrite Timestamped_search_unfold, Plain_search_unfold.
  unfold Timestamped.accepts, Plain.accepts.
  rewrite !hasLeadingZeroBits_nonpositive by exact Hz.
  split; reflexivity.
Qed.

Lemma createBlock_no_difficulty_witness :
  Timestamped.createBlock 1 1700000000000 "abc" 0
  = Some (Timestamped.Block
            (sha256_hex (("abc" ++ Number_toString 1700000000000) ++ "0"))
            "abc" 0 1700000000000)
  /\ Plain.createBlock 1 "abc" 0
     = Some (Plain.Block (sha256_hex ("abc" ++ "0")) "abc" 0).
Proof.
  apply (createBlock_no_difficulty 0 1700000000000 "abc" 0). lia.
Defined.

(** ** The hash as text *)

Lemma all_bytes_forallb (P : Z -> bool) (b : Z) :
  forallb P all_bytes = true -> is_byte b -> P b = true.
Proof.
  intros Hall Hb. rewrite forallb_forall in Hall.
  apply Hall, all_bytes_spec, Hb.
Qed.

Lemma byte_hex_ok_all (b : Z) : is_byte b -> byte_hex_ok b = true.
Proof. apply all_bytes_forallb. vm_compute. reflexivity. Qed.

Lemma byte_zeros_ok_all (b : Z) : is_byte b -> byte_zeros_ok b = true.
Proof. apply all_bytes_forallb. vm_compute. reflexivity. Qed.

Lemma Buffer_toString_hex_format (buffer : list Z) :
  Forall is_byte buffer ->
  String.length (Buffer_toString_hex buffer) = (2 * length buffer)%nat
  /\ string_forallb is_hex_char (Buffer_toString_hex buffer) = true.
Proof.
  induction 1 as [|b l Hb Hl [IHlen IHhex]]; [split; reflexivity|].
  cbn [Buffer_toString_hex String.length string_forallb length].
  apply byte_hex_ok_all in Hb. unfold byte_hex_ok in Hb.
  apply andb_prop in Hb as [Hb _]. apply andb_prop in Hb as [Hb _].
  apply andb_prop in Hb as [Hhi Hlo].
  rewrite Hhi, Hlo, IHhex, IHlen. split; [lia | reflexivity].
Qed.

(** X7: the [hash] of a block that [createBlock] returns is a text of 64
    characters, each a digit or a letter from [a] to [f]. *)
Theorem createBlock_hash_format
        (fuel : nat) (now : Z) (data : string) (startingZeros : Z) :
  (forall b,
      Timestamped.createBlock fuel now data startingZeros = Some b ->
      String.length (Timestamped.hash b) = 64%nat
      /\ string_forallb is_hex_char (Timestamped.hash b) = true)
  /\ (forall b,
         Plain.createBlock fuel data startingZeros = Some b ->
         String.length (Plain.hash b) = 64%nat
         /\ string_forallb is_hex_char (Plain.hash b) = true).
Proof.
  split; intros b Hb.
  - apply Timestamped_search_sound in Hb.
    destruct Hb as (_ & _ & _ & -> & _). unfold sha256_hex.
    destruct (sha256_digest_bytes
                (Timestamped.combined data now (Timestamped.nonce b)))
      as [Hbytes Hlen].
    destruct (Buffer_toString_hex_format _ Hbytes) as [H1 H2].
    rewrite H1, Hlen. split; [reflexivity | exact H2].
  - apply Plain_search_sound in Hb.
    destruct Hb as (_ & _ & -> & _). unfold sha256_hex.
    destruct (sha256_digest_bytes (Plain.combined data (Plain.nonce b)))
      as [Hbytes Hlen].
    destruct (Buffer_toString_hex_format _ Hbytes) as [H1 H2].
    rewrite H1, Hlen. split; [reflexivity | exact H2].
Qed.

Lemma createBlock_hash_format_witness :
  (String.length (sha256_hex (Timestamped.combined "abc" 1700000000000 13))
   = 64%nat
   /\ string_forallb is_hex_char
        (sha256_hex (Timestamped.combined "abc" 1700000000000 13)) = true)
  /\ (String.length (sha256_hex (Plain.combined "abc" 26)) = 64%nat
      /\ string_forallb is_hex_char (sha256_hex (Plain.combined "abc" 26))
         = true).
Proof.
  split.
  - apply (proj1 (createBlock_hash_format 20 1700000000000 "abc" 8)
             (Timestamped.Block
                (sha256_hex (Timestamped.combined "abc" 1700000000000 13))
                "abc" 13 1700000000000)).
    vm_compute. reflexivity.
  - apply (proj2 (createBlock_hash_format 40 1700000000000 "abc" 4)
             (Plain.Block (sha256_hex (Plain.combined "abc" 26)) "abc" 26)).
    vm_compute. reflexivity.
Defined.

(** Four leading zero bits, one leading character ["0"]. *)
Lemma Buffer_toString_hex_zeros (buffer : list Z) :
  Forall is_byte buffer ->
  forall k : nat,
    4 * Z.of_nat k <= leading_zero_bits (digest_bits buffer) ->
    exists tail, Buffer_toString_hex buffer = (zero_chars k ++ tail)%string.
Proof.
  induction 1 as [|b l Hb Hl IH]; intros k Hk.
  - cbn in Hk. assert (k = 0%nat) by lia. subst k. exists EmptyString.
    reflexivity.
  - destruct k as [|k]; [eexists; reflexivity|].
    cbn [digest_bits map concat] in Hk. fold (digest_bits l) in Hk.
    destruct (leading_zero_bits_app (byte_bits b) (digest_bits l))
      as (_ & Hshort & Hfull).
    change (Z.of_nat (length (byte_bits b))) with 8 in *.
    pose proof (byte_zeros_ok_all b Hb) as Hok. unfold byte_zeros_ok in Hok.
    cbn [Buffer_toString_hex].
    destruct (b =? 0) eqn:Hb0.
    + apply Z.eqb_eq in Hb0. subst b. apply Z.eqb_eq in Hok.
      rewrite (Hfull Hok) in Hk.
      change (hex_digit (Z.shiftr 0 4)) with "0"%char.
      change (hex_digit (Z.land 0 15)) with "0"%char.
      destruct k as [|k]; [eexists; reflexivity|].
      destruct (IH k ltac:(lia)) as [tail Htail].
      exists tail. rewrite Htail. reflexivity.
    + destruct (b <? 16) eqn:Hb16.
      * apply andb_prop in Hok as [Hok Hchar].
        apply andb_prop in Hok as [Hge Hlt].
        apply Z.leb_le in Hge. apply Z.ltb_lt in Hlt.
        apply Ascii.eqb_eq in Hchar. rewrite Hchar.
        rewrite Hshort in Hk by lia.
        assert (k = 0%nat) by lia. subst k. eexists. reflexivity.
      * apply Z.ltb_lt in Hok. rewrite Hshort in Hk by lia. lia.
Qed.

(** X8: the [hash] of a block that [createBlock] returns starts with one
    character ["0"] for every four bits of the difficulty. *)
Theorem createBlock_hash_leading_zeros
        (fuel : nat) (now : Z) (data : string) (startingZeros : Z)
        (k : nat) :
  4 * Z.of_nat k <= startingZeros ->
  (forall b,
      Timestamped.createBlock fuel now data startingZeros = Some b ->
      exists tail, Timestamped.hash b = (zero_chars k ++ tail)%string)
  /\ (forall b,
         Plain.createBlock fuel data startingZeros = Some b ->
         exists tail, Plain.hash b = (zero_chars k ++ tail)%string).
Proof.
  intros Hk. split; intros b Hb.
  - apply Timestamped_search_sound in Hb.
    destruct Hb as (_ & _ & _ & -> & Hacc).
    unfold Timestamped.accepts, hasLeadingZeroBits in Hacc.
    rewrite scan_bytes_spec, Z.add_0_l in Hacc. apply Z.leb_le in Hacc.
    apply Buffer_toString_hex_zeros; [apply sha256_digest_bytes | lia].
  - apply Plain_search_sound in Hb. destruct Hb as (_ & _ & -> & Hacc).
    unfold Plain.accepts, hasLeadingZeroBits in Hacc.
    rewrite scan_bytes_spec, Z.add_0_l in Hacc. apply Z.leb_le in Hacc.
    apply Buffer_toString_hex_zeros; [apply sha256_digest_bytes | lia].
Qed.

Lemma createBlock_hash_leading_zeros_witness :
  (exists tail,
      sha256_hex (Timestamped.combined "abc" 1700000000000 13)
      = (zero_chars 2 ++ tail)%string)
  /\ (exists tail,
         sha256_hex (Plain.combined "abc" 252) = (zero_chars 2 ++ tail)%string).
Proof.
  split.
  - apply (proj1 (createBlock_hash_leading_zeros
                    20 1700000000000 "abc" 8 2 ltac:(lia))
             (Timestamped.Block
                (sha256_hex (Timestamped.combined "abc" 1700000000000 13))
                "abc" 13 1700000000000)).
    vm_compute. reflexivity.
  - apply (proj2 (createBlock_hash_leading_zeros
                    300 1700000000000 "abc" 8 2 ltac:(lia))
             (Plain.Block (sha256_hex (Plain.combined "abc" 252))
                "abc" 252)).
    vm_compute. reflexivity.
Defined.

Lemma byte_of_hex (b b' : Z) :
  is_byte b -> is_byte b' ->
  hex_digit (Z.shiftr b 4) = hex_digit (Z.shiftr b' 4) ->
  hex_digit (Z.land b 15) = hex_digit (Z.land b' 15) ->
  b = b'.
Proof.
  intros Hb Hb' Hhi Hlo.
  apply byte_hex_ok_all in Hb. apply byte_hex_ok_all in Hb'.
  unfold byte_hex_ok in Hb, Hb'. rewrite <- Hhi, <- Hlo in Hb'.
  apply andb_prop in Hb as [Hb Hv]. apply andb_prop in Hb as [_ Heq].
  apply andb_prop in Hb' as [Hb' Hv']. apply andb_prop in Hb' as [_ Heq'].
  destruct (hex_value (hex_digit (Z.shiftr b 4))) as [h|]; [|discriminate].
  destruct (hex_value (hex_digit (Z.land b 15))) as [l|]; [|discriminate].
  apply andb_prop in Hv as [H1 H2]. apply andb_prop in Hv' as [H1' H2'].
  apply Z.eqb_eq in Heq, Heq', H1, H2, H1', H2'. lia.
Qed.

(** X9: the hexadecimal text determines the bytes, so that the comparison of
    two hashes as text, which is what [verifyBlock] does, is the comparison
    of the two digests byte by byte. *)
Theorem hex_text_determines_bytes :
  (forall l l' : list Z,
      Forall is_byte l -> Forall is_byte l' ->
      Buffer_toString_hex l = Buffer_toString_hex l' -> l = l')
  /\ (forall text text' : string,
         String.eqb (sha256_hex text) (sha256_hex text') = true
         <-> sha256_digest text = sha256_digest text').
Proof.
  assert (Hinj : forall l l' : list Z,
             Forall is_byte l -> Forall is_byte l' ->
             Buffer_toString_hex l = Buffer_toString_hex l' -> l = l').
  { intros l l' Hl. revert l'.
    induction Hl as [|b l Hb Hl IH]; intros [|b' l'] Hl' Heq;
      try discriminate Heq; [reflexivity|].
    apply Forall_cons_iff in Hl' as [Hb' Hl'].
    cbn [Buffer_toString_hex] in Heq. injection Heq as Hhi Hlo Htl.
    f_equal; [exact (byte_of_hex b b' Hb Hb' Hhi Hlo) | apply IH; assumption]. }
  split; [exact Hinj|].
  intros text text'. rewrite String.eqb_eq. unfold sha256_hex. split.
  - apply Hinj; apply sha256_digest_bytes.
  - intros ->. reflexivity.
Qed.

Lemma hex_text_determines_bytes_witness :
  [0; 171; 255] = [0; 171; 255]
  /\ (String.eqb (sha256_hex "abc252") (sha256_hex "abc252") = true
      <-> sha256_digest "abc252" = sha256_digest "abc252").
Proof.
  split.
  - apply (proj1 hex_text_determines_bytes [0; 171; 255] [0; 171; 255]).
    + repeat constructor; unfold is_byte; lia.
    + repeat constructor; unfold is_byte; lia.
    + reflexivity.
  - apply (proj2 hex_text_determines_bytes "abc252" "abc252").
Defined.

(** ** The verifier *)

(** On a file written from members that are strings and integers, the
    verifier works on these members. *)
Lemma verifyBlock_written
      (fs : gmap string file) (filePath : string)
      (ms : list (string * jsval)) :
  ms <> [] -> Forall scalar_member ms ->
  Timestamped.verifyBlock (writeFileSync fs filePath (JSON_stringify ms))
    filePath = try_catch_false (Timestamped.verify_parsed (JObj ms))
  /\ Plain.verifyBlock (writeFileSync fs filePath (JSON_stringify ms))
       filePath = try_catch_false (Plain.verify_parsed (JObj ms)).
Proof.
  intros Hne Hall. split.
  - apply (Timestamped_verifyBlock_parsed _ _ (JSON_stringify ms)).
    + apply lookup_insert_eq.
    + apply JSON_parse_stringify; assumption.
  - apply (Plain_verifyBlock_parsed _ _ (JSON_stringify ms)).
    + apply lookup_insert_eq.
    + apply JSON_parse_stringify; assumption.
Qed.

Lemma Number_toString_nonempty (n : Z) :
  (0 < String.length (Number_toString n))%nat.
Proof.
  destruct (Number_toString_head n) as (c & t & -> & _). cbn. lia.
Qed.

Lemma append_longer (a b c : string) :
  (0 < String.length b)%nat -> ((a ++ b) ++ c)%string <> (a ++ c)%string.
Proof.
  intros Hb Heq. apply (f_equal String.length) in Heq.
  rewrite !length_append in Heq. lia.
Qed.

(** X10: the two formats do not mix.  A valid block of the first variant,
    read by the verifier of the second, is hashed without its timestamp; a
    valid block of the second, read by the verifier of the first, is hashed
    with the text ["undefined"] for the timestamp.  Either way the message is
    not the one that was hashed, and the block is found invalid exactly when
    the two digests differ. *)
Theorem verifyBlock_other_variant
        (fs : gmap string file) (filePath : string) :
  (forall b : Timestamped.block,
      Timestamped.hash b
      = sha256_hex (Timestamped.combined (Timestamped.data b)
                      (Timestamped.timestamp b) (Timestamped.nonce b)) ->
      Plain.combined (Timestamped.data b) (Timestamped.nonce b)
      <> Timestamped.combined (Timestamped.data b)
           (Timestamped.timestamp b) (Timestamped.nonce b)
      /\ (Plain.verifyBlock (Timestamped.saveBlock fs filePath b) filePath
          = Some false
          <-> sha256_hex (Plain.combined (Timestamped.data b)
                            (Timestamped.nonce b))
              <> sha256_hex (Timestamped.combined (Timestamped.data b)
                               (Timestamped.timestamp b)
                               (Timestamped.nonce b))))
  /\
  (forall b : Plain.block,
      Plain.hash b
      = sha256_hex (Plain.combined (Plain.data b) (Plain.nonce b)) ->
      ((Plain.data b ++ "undefined") ++ Number_toString (Plain.nonce b))%string
      <> Plain.combined (Plain.data b) (Plain.nonce b)
      /\ (Timestamped.verifyBlock (Plain.saveBlock fs filePath b) filePath
          = Some false
          <-> sha256_hex ((Plain.data b ++ "undefined")
                          ++ Number_toString (Plain.nonce b))
              <> sha256_hex (Plain.combined (Plain.data b) (Plain.nonce b)))).
Proof.
  split.
  - intros [h d n t]. cbn [Timestamped.hash Timestamped.data
                             Timestamped.nonce Timestamped.timestamp].
    intros ->. split.
    + intros Heq. symmetry in Heq. revert Heq.
      apply append_longer, Number_toString_nonempty.
    + unfold Timestamped.saveBlock.
      destruct (Timestamped_members_scalar
                  (Timestamped.Block
                     (sha256_hex (Timestamped.combined d t n)) d n t))
        as [Hne Hall].
      rewrite (proj2 (verifyBlock_written fs filePath _ Hne Hall)).
      change (try_catch_false _)
        with (Some (String.eqb (sha256_hex (Plain.combined d n))
                      (sha256_hex (Timestamped.combined d t n)))).
      apply Some_eqb_false_iff.
  - intros [h d n]. cbn [Plain.hash Plain.data Plain.nonce].
    intros ->. split.
    + apply append_longer. cbn. lia.
    + unfold Plain.saveBlock.
      destruct (Plain_members_scalar
                  (Plain.Block (sha256_hex (Plain.combined d n)) d n))
        as [Hne Hall].
      rewrite (proj1 (verifyBlock_written fs filePath _ Hne Hall)).
      change (try_catch_false _)
        with (Some (String.eqb
                      (sha256_hex ((d ++ "undefined") ++ Number_toString n))
                      (sha256_hex (Plain.combined d n)))).
      apply Some_eqb_false_iff.
Qed.

Lemma verifyBlock_other_variant_witness :
  Plain.verifyBlock
    (Timestamped.saveBlock ∅ "block.json"
       (Timestamped.Block
          (sha256_hex (Timestamped.combined "abc" 1700000000000 13))
          "abc" 13 1700000000000))
    "block.json" = Some false
  /\ Timestamped.verifyBlock
       (Plain.saveBlock ∅ "block.json"
          (Plain.Block (sha256_hex (Plain.combined "abc" 252)) "abc" 252))
       "block.json" = Some false.
Proof.
  pose proof (verifyBlock_other_variant ∅ "block.json") as [HT HP].
  split.
  - apply (HT (Timestamped.Block
                 (sha256_hex (Timestamped.combined "abc" 1700000000000 13))
                 "abc" 13 1700000000000) eq_refl).
    vm_compute. discriminate.
  - apply (HP (Plain.Block (sha256_hex (Plain.combined "abc" 252))
                 "abc" 252) eq_refl).
    vm_compute. discriminate.
Defined.

(** X11: in the first variant a change of the timestamp of a valid block,
    whose numbers are exact integers, to another exact integer changes the
    message, and is detected exactly when the digest of the changed message
    differs from the original one. *)
Theorem tamper_timestamp
        (fs : gmap string file) (filePath : string)
        (b : Timestamped.block) (t' : Z) :
  exact_integer (Timestamped.nonce b) ->
  exact_integer (Timestamped.timestamp b) ->
  exact_integer t' ->
  Timestamped.hash b
  = sha256_hex (Timestamped.combined (Timestamped.data b)
                  (Timestamped.timestamp b) (Timestamped.nonce b)) ->
  t' <> Timestamped.timestamp b ->
  Timestamped.combined (Timestamped.data b) t' (Timestamped.nonce b)
  <> Timestamped.combined (Timestamped.data b) (Timestamped.timestamp b)
       (Timestamped.nonce b)
  /\ (Timestamped.verifyBlock
        (Timestamped.saveBlock fs filePath
           (Timestamped.Block (Timestamped.hash b) (Timestamped.data b)
              (Timestamped.nonce b) t'))
        filePath = Some false
      <-> sha256_hex (Timestamped.combined (Timestamped.data b) t'
                        (Timestamped.nonce b))
          <> sha256_hex (Timestamped.combined (Timestamped.data b)
                           (Timestamped.timestamp b) (Timestamped.nonce b))).
Proof.
  destruct b as [h d n t].
  cbn [Timestamped.hash Timestamped.data Timestamped.nonce
         Timestamped.timestamp].
  intros _ _ _ -> Ht'. split.
  - unfold Timestamped.combined. intros Heq.
    apply append_inj_r, append_inj_l, Number_toString_inj in Heq.
    contradiction.
  - rewrite Timestamped_verifyBlock_saved.
    cbn [Timestamped.hash Timestamped.data Timestamped.nonce
           Timestamped.timestamp].
    apply Some_eqb_false_iff.
Qed.

Lemma tamper_timestamp_witness :
  Timestamped.verifyBlock
    (Timestamped.saveBlock ∅ "block.json"
       (Timestamped.Block
          (sha256_hex (Timestamped.combined "abc" 1700000000000 13))
          "abc" 13 1700000000001))
    "block.json" = Some false.
Proof.
  assert (Hexact : forall n, 0 <= n <= 1700000000001 -> exact_integer n)
    by (intros n Hn; unfold exact_integer, max_exact_integer; lia).
  apply (tamper_timestamp ∅ "block.json"
           (Timestamped.Block
              (sha256_hex (Timestamped.combined "abc" 1700000000000 13))
              "abc" 13 1700000000000)
           1700000000001
           (Hexact 13 ltac:(lia)) (Hexact 1700000000000 ltac:(lia))
           (Hexact 1700000000001 ltac:(lia)) eq_refl).
  - discriminate.
  - vm_compute. discriminate.
Defined.

(** X12: a stored hash that is not a string is never equal to the computed
    one: whatever the other properties, the record is found invalid. *)
Theorem verifyBlock_hash_not_string
        (fs : gmap string file) (filePath text : string)
        (ms : list (string * jsval)) :
  fs !! filePath = Some (File text) ->
  JSON_parse text = Done (JObj ms) ->
  (forall s, member_value "hash" ms <> JStr s) ->
  Timestamped.verifyBlock fs filePath = Some false
  /\ Plain.verifyBlock fs filePath = Some false.
Proof.
  intros Hfile Hparse Hhash.
  rewrite (Timestamped_verifyBlock_parsed _ _ _ _ Hfile Hparse).
  rewrite (Plain_verifyBlock_parsed _ _ _ _ Hfile Hparse).
  apply verify_parsed_hash_not_string, Hhash.
Qed.

Lemma verifyBlock_hash_not_string_witness :
  Timestamped.verifyBlock
    {[ "block.json"%string :=
         File (JSON_stringify
                 [("hash", JNum 0); ("data", JStr "ab");
                  ("nonce", JNum 7)]%string) ]}
    "block.json" = Some false
  /\ Plain.verifyBlock
       {[ "block.json"%string :=
            File (JSON_stringify
                    [("hash", JNum 0); ("data", JStr "ab");
                     ("nonce", JNum 7)]%string) ]}
       "block.json" = Some false.
Proof.
  apply (verifyBlock_hash_not_string _ "block.json"
           (JSON_stringify
              [("hash", JNum 0); ("data", JStr "ab"); ("nonce", JNum 7)]%string)
           [("hash", JNum 0); ("data", JStr "ab"); ("nonce", JNum 7)]%string).
  - apply lookup_singleton_eq.
  - vm_compute. reflexivity.
  - intros s. discriminate.
Defined.

(** The sum of values that are not textual is a number or [NaN]. *)
Lemma js_add_not_textual (a b : jsval) :
  not_textual a -> not_textual b ->
  exists sum,
    js_add a b = Done sum
    /\ not_textual sum
    /\ createHash_update_digest_hex sum = Throw.
Proof.
  intros Ha Hb.
  destruct a as [| |[|]|x| |s|l|l]; try contradiction;
    destruct b as [| |[|]|y| |s|l|l]; try contradiction;
    eexists; (split; [reflexivity | split; [exact I | reflexivity]]).
Qed.

(** X13: when none of the hashed properties is a string, an array or an
    object (each is a number, a boolean, [null] or missing), their sum is
    a number, [update] throws, and the record is found invalid. *)
Theorem verifyBlock_no_text
        (fs : gmap string file) (filePath text : string)
        (ms : list (string * jsval)) :
  fs !! filePath = Some (File text) ->
  JSON_parse text = Done (JObj ms) ->
  not_textual (member_value "data" ms) ->
  not_textual (member_value "nonce" ms) ->
  (not_textual (member_value "timestamp" ms) ->
   Timestamped.verifyBlock_body fs filePath = Throw
   /\ Timestamped.verifyBlock fs filePath = Some false)
  /\ (Plain.verifyBlock_body fs filePath = Throw
      /\ Plain.verifyBlock fs filePath = Some false).
Proof.
  intros Hfile Hparse Hd Hn.
  unfold Timestamped.verifyBlock, Plain.verifyBlock,
    Timestamped.verifyBlock_body, Plain.verifyBlock_body.
  rewrite (readFileSync_file _ _ _ Hfile). cbn [bind]. rewrite Hparse.
  cbn [bind].
  rewrite Timestamped_verify_parsed_object, Plain_verify_parsed_object.
  split.
  - intros Ht.
    destruct (js_add_not_textual _ _ Hd Ht) as (sum & -> & Hsum & _).
    cbn [bind].
    destruct (js_add_not_textual _ _ Hsum Hn) as (all & -> & _ & Hthrow).
    cbn [bind]. rewrite Hthrow. split; reflexivity.
  - destruct (js_add_not_textual _ _ Hd Hn) as (all & -> & _ & Hthrow).
    cbn [bind]. rewrite Hthrow. split; reflexivity.
Qed.

Lemma verifyBlock_no_text_witness :
  Timestamped.verifyBlock
    {[ "block.json"%string :=
         File (JSON_stringify
                 [("hash", JStr "00"); ("data", JNum 1);
                  ("nonce", JNum 2)]%string) ]}
    "block.json" = Some false
  /\ Plain.verifyBlock
       {[ "block.json"%string :=
            File (JSON_stringify
                    [("hash", JStr "00"); ("data", JNum 1);
                     ("nonce", JNum 2)]%string) ]}
       "block.json" = Some false.
Proof.
  destruct (verifyBlock_no_text
              {[ "block.json"%string :=
                   File (JSON_stringify
                           [("hash", JStr "00"); ("data", JNum 1);
                            ("nonce", JNum 2)]%string) ]}
              "block.json"
              (JSON_stringify
                 [("hash", JStr "00"); ("data", JNum 1);
                  ("nonce", JNum 2)]%string)
              [("hash", JStr "00"); ("data", JNum 1); ("nonce", JNum 2)]%string)
    as [HT [_ HP]].
  - apply lookup_singleton_eq.
  - vm_compute. reflexivity.
  - exact I.
  - exact I.
  - split; [apply HT; exact I | exact HP].
Defined.

(** X14: the verifier reads the text of the properties, not their type: with
    a string for [data], a nonce (and a timestamp) that is an exact integer
    gives the same answer written as a number and written as the string of
    its decimal numeral. *)
Theorem verifyBlock_number_or_numeral
        (fs : gmap string file) (filePath h d : string) (n t : Z) :
  exact_integer n ->
  (exact_integer t ->
   Timestamped.verifyBlock
     (writeFileSync fs filePath
        (JSON_stringify
           [("hash", JStr h); ("data", JStr d);
            ("nonce", JStr (Number_toString n));
            ("timestamp", JStr (Number_toString t))]%string))
     filePath
   = Timestamped.verifyBlock
       (writeFileSync fs filePath
          (JSON_stringify
             [("hash", JStr h); ("data", JStr d);
              ("nonce", JNum n); ("timestamp", JNum t)]%string))
       filePath)
  /\ (Plain.verifyBlock
        (writeFileSync fs filePath
           (JSON_stringify
              [("hash", JStr h); ("data", JStr d);
               ("nonce", JStr (Number_toString n))]%string))
        filePath
      = Plain.verifyBlock
          (writeFileSync fs filePath
             (JSON_stringify
                [("hash", JStr h); ("data", JStr d);
                 ("nonce", JNum n)]%string))
          filePath).
Proof.
  intros _.
  assert (Hwritten : forall ms,
             ms <> [] -> Forall scalar_member ms ->
             Timestamped.verifyBlock
               (writeFileSync fs filePath (JSON_stringify ms)) filePath
             = try_catch_false (Timestamped.verify_parsed (JObj ms))
             /\ Plain.verifyBlock
                  (writeFileSync fs filePath (JSON_stringify ms)) filePath
                = try_catch_false (Plain.verify_parsed (JObj ms)))
    by (intros ms; apply verifyBlock_written).
  split.
  - intros _.
    rewrite !(fun ms Hne Hall => proj1 (Hwritten ms Hne Hall))
      by first [discriminate | repeat constructor].
    reflexivity.
  - rewrite !(fun ms Hne Hall => proj2 (Hwritten ms Hne Hall))
      by first [discriminate | repeat constructor].
    reflexivity.
Qed.

Lemma verifyBlock_number_or_numeral_witness :
  Timestamped.verifyBlock
    (writeFileSync ∅ "block.json"
       (JSON_stringify
          [("hash", JStr "00"); ("data", JStr "abc");
           ("nonce", JStr (Number_toString 13));
           ("timestamp", JStr (Number_toString 1700000000000))]%string))
    "block.json"
  = Timestamped.verifyBlock
      (writeFileSync ∅ "block.json"
         (JSON_stringify
            [("hash", JStr "00"); ("data", JStr "abc");
             ("nonce", JNum 13); ("timestamp", JNum 1700000000000)]%string))
      "block.json".
Proof.
  assert (Hexact : forall n, 0 <= n <= 1700000000000 -> exact_integer n)
    by (intros n Hn; unfold exact_integer, max_exact_integer; lia).
  exact (proj1 (verifyBlock_number_or_numeral ∅ "block.json" "00" "abc"
                  13 1700000000000 (Hexact 13 ltac:(lia)))
               (Hexact 1700000000000 ltac:(lia))).
Defined.
